(** * Weather trend predictor and smart alert system

    A shallow embedding of [services/forecast_analytics/ai_models.py]:
    the feature builder [prepare_features], the life cycle of
    [WeatherTrendPredictor] ([load_or_create_model], [train], [predict])
    and the rule engine [SmartAlertSystem] ([analyze_forecast],
    [set_thresholds]).

    Conventions of the embedding.
    - Python floats are idealised as exact rationals ([Q]); a missing cell
      of a pandas column (NaN) is [None].
    - A dictionary read with [.get(key, default)] is a record whose fields
      are options ([None] = key absent).
    - A raised exception is the [Raise] branch of [result]; the [None]
      returned by [predict] is an ordinary value.
    - The two scikit-learn estimators are opaque: their fitting and
      evaluation functions are the fields of the class [Sklearn].
    - Two facts of the libraries the source does not fix are parameters as
      well: which dates the timestamp type can reach ([TimestampLimits])
      and the case mapping of [str.lower] beyond ASCII ([StrLower]). *)

From Stdlib Require Import ZArith QArith Qfield String Ascii List Bool Lia.
Import ListNotations.

Local Open Scope Z_scope.

(** ** Exceptions and results *)

Inductive exn : Type :=
| KeyError (key : string)
| NotFittedError
| ValueError
| FileNotFoundError
| IndexError
| OutOfBoundsDatetime.

Inductive result (A : Type) : Type :=
| Ok (a : A)
| Raise (e : exn).

Arguments Ok {A} a.
Arguments Raise {A} e.

Definition bind {A B : Type} (r : result A) (k : A -> result B) : result B :=
  match r with
  | Ok a => k a
  | Raise e => Raise e
  end.

Declare Scope result_scope.
Delimit Scope result_scope with result.
Notation "x <- r ;; k" := (bind r (fun x => k))
  (at level 61, r at next level, right associativity) : result_scope.

(** A list comprehension whose element expression may raise: the elements
    are computed from left to right and the first exception leaves it. *)
Fixpoint map_result {A B : Type} (f : A -> result B) (l : list A)
  : result (list B) :=
  match l with
  | [] => Ok []
  | x :: rest =>
      match f x with
      | Raise e => Raise e
      | Ok y =>
          match map_result f rest with
          | Raise e => Raise e
          | Ok ys => Ok (y :: ys)
          end
      end
  end.

(** ** Calendar: the fields of a timestamp and [timedelta(days=i)] *)

Module Calendar.

(** A parsed timestamp ([pd.to_datetime]): a civil date and a time of
    day. *)
Record Timestamp : Type := mkTimestamp {
  ts_year : Z;
  ts_month : Z;
  ts_day : Z;
  ts_hour : Z;
  ts_minute : Z;
  ts_second : Z
}.

Definition is_leap (y : Z) : bool :=
  (y mod 4 =? 0) && (negb (y mod 100 =? 0) || (y mod 400 =? 0)).

Definition DAYS_IN_MONTH : list Z :=
  [0; 31; 28; 31; 30; 31; 30; 31; 31; 30; 31; 30; 31].

Definition DAYS_BEFORE_MONTH : list Z :=
  [0; 0; 31; 59; 90; 120; 151; 181; 212; 243; 273; 304; 334].

Definition days_in_month (y m : Z) : Z :=
  if (m =? 2) && is_leap y then 29 else nth (Z.to_nat m) DAYS_IN_MONTH 0.

Definition days_before_month (y m : Z) : Z :=
  nth (Z.to_nat m) DAYS_BEFORE_MONTH 0
  + (if (2 <? m) && is_leap y then 1 else 0).

Definition days_before_year (y : Z) : Z :=
  let p := y - 1 in p * 365 + p / 4 - p / 100 + p / 400.

(** Proleptic Gregorian ordinal of a date, 0001-01-01 being day 1. *)
Definition ymd2ord (y m d : Z) : Z :=
  days_before_year y + days_before_month y m + d.

Definition DI400Y : Z := 146097.
Definition DI100Y : Z := 36524.
Definition DI4Y : Z := 1461.

(** The date of an ordinal within one 400-year cycle, the cycle's first
    year being [base + 1]; [r] is the zero-based day of the cycle. *)
Definition cycle2ymd (base r : Z) : Z * Z * Z :=
  let n100 := r / DI100Y in
  let r1 := r mod DI100Y in
  let n4 := r1 / DI4Y in
  let r2 := r1 mod DI4Y in
  let n1 := r2 / 365 in
  let r3 := r2 mod 365 in
  let y := base + 1 + n100 * 100 + n4 * 4 + n1 in
  if (n1 =? 4) || (n100 =? 4) then (y - 1, 12, 31)
  else
    let leapyear := (n1 =? 3) && (negb (n4 =? 24) || (n100 =? 3)) in
    let month := Z.shiftr (r3 + 50) 5 in
    let preceding :=
      nth (Z.to_nat month) DAYS_BEFORE_MONTH 0
      + (if (2 <? month) && leapyear then 1 else 0) in
    if r3 <? preceding then
      let month' := month - 1 in
      let preceding' :=
        preceding
        - (nth (Z.to_nat month') DAYS_IN_MONTH 0
           + (if (month' =? 2) && leapyear then 1 else 0)) in
      (y, month', r3 - preceding' + 1)
    else (y, month, r3 - preceding + 1).

Definition ord2ymd (n : Z) : Z * Z * Z :=
  let n0 := n - 1 in
  cycle2ymd ((n0 / DI400Y) * 400) (n0 mod DI400Y).

Definition ordinal (t : Timestamp) : Z :=
  ymd2ord (ts_year t) (ts_month t) (ts_day t).

Definition date_of (t : Timestamp) : Z * Z * Z :=
  (ts_year t, ts_month t, ts_day t).

(** The timestamp [i] days after [t], at the same time of day. *)
Definition shift_days (t : Timestamp) (i : Z) : Timestamp :=
  let '(y, m, d) := ord2ymd (ordinal t + i) in
  mkTimestamp y m d (ts_hour t) (ts_minute t) (ts_second t).

(** What the timestamp type can reach.  The source does not say which
    offsets [timedelta(days=i)] can be added to a timestamp without leaving
    the range of the type (that depends on the library and its resolution),
    so it is a parameter; whatever it is, a timestamp has a year between 1
    and 9999. *)
Class TimestampLimits : Type := {
  can_add_days : Timestamp -> Z -> bool;
  can_add_days_year :
    forall t i, can_add_days t i = true ->
                1 <= ts_year (shift_days t i) <= 9999
}.

(** [t + timedelta(days=i)]: the shifted timestamp, or the error of an
    addition that leaves the range of the type (the library's
    [OutOfBoundsDatetime]; some of its versions raise an [OverflowError]
    or an [OutOfBoundsTimedelta] there). *)
Definition add_days {lim : TimestampLimits} (t : Timestamp) (i : Z)
  : result Timestamp :=
  if can_add_days t i then Ok (shift_days t i) else Raise OutOfBoundsDatetime.

Definition dayofyear (t : Timestamp) : Z :=
  days_before_month (ts_year t) (ts_month t) + ts_day t.

(** The calendar's own notion of "the day after": the reference the
    ordinal arithmetic is checked against. *)
Definition next_day (ymd : Z * Z * Z) : Z * Z * Z :=
  let '(y, m, d) := ymd in
  if d <? days_in_month y m then (y, m, d + 1)
  else if m <? 12 then (y, m + 1, 1)
  else (y + 1, 1, 1).

Definition valid_date (ymd : Z * Z * Z) : bool :=
  let '(y, m, d) := ymd in
  (1 <=? m) && (m <=? 12) && (1 <=? d) && (d <=? days_in_month y m).

(** Rendering, [strftime('%Y-%m-%d')]: the year in decimal, without
    leading zeros (years 1..9999), month and day on two digits. *)
Definition digit (d : Z) : ascii :=
  ascii_of_nat (48 + Z.to_nat (d mod 10)).

Definition pad2 (n : Z) : string :=
  String (digit (n / 10)) (String (digit n) EmptyString).

Definition pad4 (n : Z) : string :=
  String (digit (n / 1000)) (String (digit (n / 100)) (pad2 n)).

Definition print_year (y : Z) : string :=
  if y <? 10 then String (digit y) EmptyString
  else if y <? 100 then pad2 y
  else if y <? 1000 then String (digit (y / 100)) (pad2 y)
  else pad4 y.

Definition strftime_ymd (t : Timestamp) : string :=
  (print_year (ts_year t) ++ "-" ++ pad2 (ts_month t) ++ "-"
   ++ pad2 (ts_day t))%string.

(** The same day, [b] years later. *)
Definition shift_year (b : Z) (ymd : Z * Z * Z) : Z * Z * Z :=
  let '(y, m, d) := ymd in (b + y, m, d).

Definition ymd_eqb (a b : Z * Z * Z) : bool :=
  let '(y1, m1, d1) := a in
  let '(y2, m2, d2) := b in
  (y1 =? y2) && (m1 =? m2) && (d1 =? d2).

(** A walk through [n] days of the first 400-year cycle from day [r] on,
    each date being compared with the day after its predecessor [prev]. *)
Fixpoint cycle_walk (prev : Z * Z * Z) (r : Z) (n : nat) : bool :=
  match n with
  | O => true
  | S n' =>
      let cur := cycle2ymd 0 r in
      ymd_eqb cur (next_day prev) && cycle_walk cur (r + 1) n'
  end.

(** A check run on [n] consecutive integers from [z] on. *)
Fixpoint all_from (P : Z -> bool) (z : Z) (n : nat) : bool :=
  match n with
  | O => true
  | S n' => P z && all_from P (z + 1) n'
  end.

(** The first day of year [y] of the first cycle sits where
    [days_before_year] puts it. *)
Definition year_start_ok (y : Z) : bool :=
  (0 <=? days_before_year y) && (days_before_year y <? DI400Y)
  && ymd_eqb (cycle2ymd 0 (days_before_year y)) (y, 1, 1).

(** A date as [strftime('%Y-%m-%d')] prints it. *)
Definition render_date (ymd : Z * Z * Z) : string :=
  let '(y, m, d) := ymd in
  (print_year y ++ "-" ++ pad2 m ++ "-" ++ pad2 d)%string.

(** Calendar order. *)
Definition date_ltb (a b : Z * Z * Z) : bool :=
  let '(y1, m1, d1) := a in
  let '(y2, m2, d2) := b in
  (y1 <? y2) || ((y1 =? y2) && ((m1 <? m2) || ((m1 =? m2) && (d1 <? d2)))).

(** The [k] days that follow the date [d]. *)
Definition days_after (d : Z * Z * Z) (k : nat) : list (Z * Z * Z) :=
  map (fun j => Nat.iter j next_day d) (seq 1 k).

(** The widest limits: every date of the years 1 to 9999 can be reached. *)
Definition in_datetime_range (t : Timestamp) (i : Z) : bool :=
  (1 <=? ts_year (shift_days t i)) && (ts_year (shift_days t i) <=? 9999).

Definition datetime_limits : TimestampLimits := {|
  can_add_days := in_datetime_range;
  can_add_days_year := fun t i H =>
    let (Hlo, Hhi) := andb_prop _ _ H in
    conj (proj1 (Z.leb_le _ _) Hlo) (proj1 (Z.leb_le _ _) Hhi)
|}.

End Calendar.

(** ** pandas: columns with missing cells and the rolling mean *)

Module Pandas.
Local Open Scope Q_scope.

(** A float column; [None] is NaN. *)
Definition Series : Type := list (option Q).

Definition slice {A : Type} (l : list A) (a b : nat) : list A :=
  firstn (b - a) (skipn a l).

(** The accumulator of [roll_mean]: the number of non-missing
    observations in the window and their sum. *)
Record RollState : Type := mkRollState {
  nobs : Z;
  sum_x : Q
}.

Definition add_mean (st : RollState) (val : option Q) : RollState :=
  match val with
  | Some v => mkRollState (nobs st + 1) (sum_x st + v)
  | None => st
  end.

Definition remove_mean (st : RollState) (val : option Q) : RollState :=
  match val with
  | Some v => mkRollState (nobs st - 1) (sum_x st - v)
  | None => st
  end.

Definition calc_mean (minp : Z) (st : RollState) : option Q :=
  if ((minp <=? nobs st) && (0 <? nobs st))%Z
  then Some (sum_x st / inject_Z (nobs st))
  else None.

(** Bounds of the fixed trailing window ending at row [i]:
    [start = max(0, i + 1 - window)], [end = i + 1]. *)
Definition win_start (window i : nat) : nat := (i + 1 - window)%nat.
Definition win_end (i : nat) : nat := (i + 1)%nat.

(** One output per row; rows [i], [i+1], ... with [n] rows to go.  The
    first row fills the accumulator from its window, every later row
    removes what left the window and adds what entered it. *)
Fixpoint roll_loop (values : Series) (window : nat) (minp : Z)
         (n i : nat) (st : RollState) : Series :=
  match n with
  | O => []
  | S n' =>
      let s := win_start window i in
      let e := win_end i in
      let st' :=
        match i with
        | O => fold_left add_mean (slice values s e) (mkRollState 0 0)
        | S j =>
            let removed :=
              fold_left remove_mean (slice values (win_start window j) s) st in
            fold_left add_mean (slice values (win_end j) e) removed
        end in
      calc_mean minp st' :: roll_loop values window minp n' (S i) st'
  end.

(** [series.rolling(window=window, min_periods=minp).mean()] *)
Definition rolling_mean (window : nat) (minp : Z) (values : Series) : Series :=
  roll_loop values window minp (length values) 0 (mkRollState 0 0).

(** The non-missing cells of a column. *)
Definition present (l : Series) : list Q :=
  flat_map (fun c => match c with Some v => [v] | None => [] end) l.

Definition Qsum (l : list Q) : Q := fold_right Qplus 0 l.

(** Arithmetic mean. *)
Definition mean (l : list Q) : Q :=
  Qsum l / inject_Z (Z.of_nat (length l)).

(** The mean of the non-missing cells of a window, missing when there
    are fewer than [minp] of them. *)
Definition window_mean (minp : Z) (w : Series) : option Q :=
  let n := Z.of_nat (length (present w)) in
  if ((minp <=? n) && (0 <? n))%Z then Some (mean (present w)) else None.

(** Equality of cells up to the equality of rationals. *)
Inductive cell_eq : option Q -> option Q -> Prop :=
| cell_eq_nan : cell_eq None None
| cell_eq_val (a b : Q) : a == b -> cell_eq (Some a) (Some b).

(** The accumulator holds the count and the sum of rows [a .. b-1]. *)
Definition tracks (values : Series) (a b : nat) (st : RollState) : Prop :=
  nobs st = Z.of_nat (length (present (slice values a b)))
  /\ sum_x st == Qsum (present (slice values a b)).

End Pandas.

(** ** Feature builder *)

Module Features.
Import Calendar Pandas.
Local Open Scope Q_scope.

(** A historical record.  [pressure] may be absent from the record;
    [timestamp], [temperature] and [humidity] are always read, and the
    embedding covers the records that carry the three of them, with a
    timestamp that parses and numbers as values: the [KeyError] of a
    frame without one of these columns is outside it, but for the frame
    of the empty input, which has no column at all. *)
Record Observation : Type := mkObservation {
  timestamp : Timestamp;
  temperature : Q;
  humidity : Q;
  pressure : option Q
}.

Record FeatureRow : Type := mkFeatureRow {
  day_of_year : Z;
  month : Z;
  day : Z;
  hour : Z;
  temp_rolling_avg : option Q;
  humidity_rolling_avg : option Q;
  pressure_rolling_avg : option Q
}.

Definition has_pressure (o : Observation) : bool :=
  match pressure o with Some _ => true | None => false end.

(** [df.get('pressure', pd.Series([1013] * len(df)))]: the column of the
    frame when at least one record carries the key (cells of the other
    records are missing), the constant column otherwise. *)
Definition pressure_column (historical_data : list Observation) : Series :=
  if existsb has_pressure historical_data
  then map pressure historical_data
  else repeat (Some 1013) (length historical_data).

Definition make_row (cell : Observation * (option Q * (option Q * option Q)))
  : FeatureRow :=
  let '(o, (t, (h, p))) := cell in
  mkFeatureRow (dayofyear (timestamp o)) (ts_month (timestamp o))
               (ts_day (timestamp o)) (ts_hour (timestamp o)) t h p.

Definition prepare_features (historical_data : list Observation)
  : result (list FeatureRow * list Q) :=
  match historical_data with
  | [] => Raise (KeyError "timestamp")
  | _ :: _ =>
      let temp := map (fun o => Some (temperature o)) historical_data in
      let hum := map (fun o => Some (humidity o)) historical_data in
      let pres := pressure_column historical_data in
      let '(temp_avg, hum_avg, pres_avg) :=
        if (5 <? length historical_data)%nat
        then (rolling_mean 5 1 temp, rolling_mean 5 1 hum, rolling_mean 5 1 pres)
        else (temp, hum, pres) in
      Ok (map make_row
              (combine historical_data
                       (combine temp_avg (combine hum_avg pres_avg))),
          map temperature historical_data)
  end.

(** The indices [max(0, i - 4) .. i] and the cells found there. *)
Definition trailing_indices (i : nat) : list nat :=
  seq (i - 4) (i + 1 - (i - 4)).

Definition values_at {A : Type} (d : A) (xs : list A) (idx : list nat) : list A :=
  map (fun j => nth j xs d) idx.

(** Arithmetic mean of [xs] over the indices [max(0, i - 4) .. i]. *)
Definition trailing_mean (xs : list Q) (i : nat) : Q :=
  mean (values_at 0 xs (trailing_indices i)).

Definition pressure_or_default (o : Observation) : Q :=
  match pressure o with Some p => p | None => 1013 end.

(** Every record carries a pressure, or none does. *)
Definition uniform_pressure (data : list Observation) : bool :=
  forallb has_pressure data || negb (existsb has_pressure data).

(** What [prepare_features] puts in the three rolling-average cells of
    row [i]: trailing means on more than five records, the raw cells of
    the columns otherwise. *)
Definition rolling_cells_ok (data : list Observation) (i : nat)
           (o : Observation) (row : FeatureRow) : Prop :=
  if (5 <? length data)%nat then
    cell_eq (temp_rolling_avg row)
            (Some (trailing_mean (map temperature data) i))
    /\ cell_eq (humidity_rolling_avg row)
               (Some (trailing_mean (map humidity data) i))
    /\ cell_eq (pressure_rolling_avg row)
               (window_mean 1 (values_at None (pressure_column data)
                                         (trailing_indices i)))
    /\ (uniform_pressure data = true ->
        cell_eq (pressure_rolling_avg row)
                (Some (trailing_mean (map pressure_or_default data) i)))
  else
    temp_rolling_avg row = Some (temperature o)
    /\ humidity_rolling_avg row = Some (humidity o)
    /\ pressure_rolling_avg row
       = (if existsb has_pressure data then pressure o else Some 1013).

(** The claim as the specification words it: on every accepted input
    every row carries the trailing means, the pressure of a record
    without one counting as 1013. *)
Definition rolling_claim (data : list Observation) : Prop :=
  forall rows targets i row,
    prepare_features data = Ok (rows, targets) ->
    nth_error rows i = Some row ->
    cell_eq (temp_rolling_avg row)
            (Some (trailing_mean (map temperature data) i))
    /\ cell_eq (humidity_rolling_avg row)
               (Some (trailing_mean (map humidity data) i))
    /\ cell_eq (pressure_rolling_avg row)
               (Some (trailing_mean (map pressure_or_default data) i)).

Definition obs (d : Z) (t : Q) (p : option Q) : Observation :=
  mkObservation (mkTimestamp 2023 1 d 12 0 0) t 50 p.

(** Temperatures 10, 20, 10, 20, 10. *)
Definition five_observations : list Observation :=
  [obs 1 10 None; obs 2 20 None; obs 3 10 None; obs 4 20 None; obs 5 10 None].

(** Six records of which only the first carries a pressure. *)
Definition six_mixed_pressure : list Observation :=
  [obs 1 10 (Some 1000); obs 2 20 None; obs 3 10 None; obs 4 20 None;
   obs 5 10 None; obs 6 20 None].

(** The claim about the first record as the specification words it. *)
Definition first_row_claim (data : list Observation) : Prop :=
  forall rows targets row o,
    prepare_features data = Ok (rows, targets) ->
    nth_error rows 0 = Some row ->
    nth_error data 0 = Some o ->
    cell_eq (temp_rolling_avg row) (Some (temperature o))
    /\ cell_eq (humidity_rolling_avg row) (Some (humidity o))
    /\ cell_eq (pressure_rolling_avg row) (Some (pressure_or_default o)).

(** Two records, only the second carrying a pressure. *)
Definition late_pressure : list Observation :=
  [obs 1 10 None; obs 2 20 (Some 1000)].

End Features.

(** ** WeatherTrendPredictor *)

Module Predictor.
Import Calendar Pandas Features.
Local Open Scope Q_scope.

(** scikit-learn as far as the predictor uses it: a [StandardScaler]
    ([fit], [transform]) and a [RandomForestRegressor] with fixed
    hyper-parameters ([fit], [predict]).  Fitting is a function of the
    training data, the random state being a constant. *)
Class Sklearn : Type := {
  ScalerParams : Type;
  ScaledRow : Type;
  Forest : Type;
  scaler_fit : list FeatureRow -> ScalerParams;
  scaler_apply : ScalerParams -> FeatureRow -> ScaledRow;
  forest_fit : list ScaledRow -> list Q -> Forest;
  forest_apply : Forest -> ScaledRow -> Q
}.

Section WithSklearn.
Context {sk : Sklearn} {lim : TimestampLimits}.

(** [RandomForestRegressor(n_estimators=100, random_state=42)], before
    and after [fit]. *)
Inductive Regressor : Type :=
| Unfitted
| Fitted (f : Forest).

(** The instance: [self.model] and [self.scaler] ([None] is the
    [StandardScaler()] of the constructor, not fitted yet);
    [self.model_path] is a constant. *)
Record WeatherTrendPredictor : Type := mkPredictor {
  model : Regressor;
  scaler : option ScalerParams
}.

(** The part of the file system the class touches: the directory
    [models] and the file [models/weather_trend_model.pkl]. *)
Record FileSystem : Type := mkFileSystem {
  models_dir : bool;
  model_file : option Regressor
}.

Definition load_or_create_model (fs : FileSystem) : Regressor * FileSystem :=
  match model_file fs with
  | Some m => (m, fs)
  | None => (Unfitted, mkFileSystem true (model_file fs))
  end.

(** [WeatherTrendPredictor()] *)
Definition init (fs : FileSystem) : WeatherTrendPredictor * FileSystem :=
  let '(m, fs') := load_or_create_model fs in
  (mkPredictor m None, fs').

(** [joblib.dump(model, model_path)] *)
Definition joblib_dump (m : Regressor) (fs : FileSystem) : result FileSystem :=
  if models_dir fs then Ok (mkFileSystem true (Some m))
  else Raise FileNotFoundError.

(** [scaler.transform(X)] *)
Definition scaler_transform (s : option ScalerParams) (X : list FeatureRow)
  : result (list ScaledRow) :=
  match s with
  | None => Raise NotFittedError
  | Some params =>
      match X with
      | [] => Raise ValueError
      | _ :: _ => Ok (map (scaler_apply params) X)
      end
  end.

(** [model.predict(X)] *)
Definition model_predict (m : Regressor) (X : list ScaledRow) : result (list Q) :=
  match m with
  | Unfitted => Raise NotFittedError
  | Fitted f => Ok (map (forest_apply f) X)
  end.

(** [train]: the outcome together with the instance and the file system
    as the call leaves them. *)
Definition train (self : WeatherTrendPredictor) (fs : FileSystem)
           (historical_data : list Observation)
  : result bool * WeatherTrendPredictor * FileSystem :=
  if (length historical_data <? 10)%nat then (Ok false, self, fs)
  else
    match prepare_features historical_data with
    | Raise e => (Raise e, self, fs)
    | Ok (X, y) =>
        let params := scaler_fit X in
        let X_scaled := map (scaler_apply params) X in
        let fitted := Fitted (forest_fit X_scaled y) in
        let self' := mkPredictor fitted (Some params) in
        match joblib_dump fitted fs with
        | Raise e => (Raise e, self', fs)
        | Ok fs' => (Ok true, self', fs')
        end
    end.

Record PredictionPoint : Type := mkPoint {
  date : string;
  predicted_temperature : Q
}.

(** [range(lo, hi)] *)
Definition py_range (lo hi : Z) : list Z :=
  map (fun n => (lo + Z.of_nat n)%Z) (seq 0 (Z.to_nat (hi - lo))).

(** [xs[-1]] *)
Definition last_item {A : Type} (xs : list A) : result A :=
  match rev xs with
  | x :: _ => Ok x
  | [] => Raise IndexError
  end.

Definition future_row (last_row : FeatureRow) (d : Timestamp) : FeatureRow :=
  mkFeatureRow (dayofyear d) (ts_month d) (ts_day d) (ts_hour d)
               (temp_rolling_avg last_row)
               (humidity_rolling_avg last_row)
               (pressure_rolling_avg last_row).

Definition predict (self : WeatherTrendPredictor)
           (historical_data : list Observation) (days_to_predict : Z)
  : result (option (list PredictionPoint)) :=
  if (length historical_data <? 5)%nat then Ok None
  else
    (Xy <- prepare_features historical_data ;;
     last_obs <- last_item historical_data ;;
     let last_timestamp := timestamp last_obs in
     future_dates <-
       map_result (add_days last_timestamp) (py_range 1 (days_to_predict + 1)) ;;
     last_row <- last_item (fst Xy) ;;
     let future_X := map (future_row last_row) future_dates in
     future_X_scaled <- scaler_transform (scaler self) future_X ;;
     predictions <- model_predict (model self) future_X_scaled ;;
     Ok (Some (map (fun dp => mkPoint (strftime_ymd (fst dp)) (snd dp))
                   (combine future_dates predictions))))%result.

(** Every date of the horizon can be reached from [t]. *)
Definition horizon_ok (t : Timestamp) (k : Z) : bool :=
  forallb (can_add_days t) (py_range 1 (k + 1)).

(** The horizon claim as the specification words it: whatever the
    horizon, [predict] returns exactly [k] points, dated YYYY-MM-DD with
    the [k] days that follow the last observation. *)
Definition iso_date (ymd : Z * Z * Z) : string :=
  let '(y, m, d) := ymd in (pad4 y ++ "-" ++ pad2 m ++ "-" ++ pad2 d)%string.

Definition horizon_claim (self : WeatherTrendPredictor)
           (historical_data : list Observation) (k : Z) : Prop :=
  forall last_obs,
    nth_error historical_data (length historical_data - 1) = Some last_obs ->
    exists points,
      predict self historical_data k = Ok (Some points)
      /\ Z.of_nat (length points) = k
      /\ map date points
         = map iso_date
               (days_after (date_of (timestamp last_obs)) (Z.to_nat k)).

End WithSklearn.

(** A stand-in for scikit-learn on which the class can be run: no
    scaling, and a regressor that answers the mean of its targets. *)
Definition mean_sklearn : Sklearn := {|
  ScalerParams := unit;
  ScaledRow := FeatureRow;
  Forest := Q;
  scaler_fit := fun _ => tt;
  scaler_apply := fun _ row => row;
  forest_fit := fun _ y =>
    fold_right Qplus 0 y / inject_Z (Z.of_nat (length y));
  forest_apply := fun f _ => f
|}.

(** Both estimators of the instance have been fitted. *)
Definition trained {sk : Sklearn} (self : WeatherTrendPredictor) : bool :=
  match model self, scaler self with
  | Fitted _, Some _ => true
  | _, _ => false
  end.

(** Ten daily records, 1 to 10 January 2023. *)
Definition ten_observations : list Observation :=
  map (fun d => obs d (inject_Z d) (Some 1010)) [1; 2; 3; 4; 5; 6; 7; 8; 9; 10]%Z.

Definition cold_instance : WeatherTrendPredictor (sk := mean_sklearn) :=
  mkPredictor Unfitted None.

Definition trained_instance : WeatherTrendPredictor (sk := mean_sklearn) :=
  snd (fst (train cold_instance (mkFileSystem true None) ten_observations)).

End Predictor.

(** ** SmartAlertSystem *)

Module Alerts.
Local Open Scope Q_scope.

Record SmartAlertSystem : Type := mkSmartAlertSystem {
  extreme_heat_threshold : Q;
  freezing_threshold : Q;
  high_wind_threshold : Q;
  heavy_rain_threshold : Q;
  storm_keywords : list string
}.

(** [SmartAlertSystem()] *)
Definition init : SmartAlertSystem :=
  mkSmartAlertSystem 35 0 20 10
                     ["thunderstorm"; "storm"; "hurricane"; "tornado"]%string.

(** A forecast point, a dictionary read with [.get]. *)
Record Forecast : Type := mkForecast {
  f_timestamp : option string;
  f_date : option string;
  f_temperature : option Q;
  f_wind_speed : option Q;
  f_description : option string
}.

Inductive AlertType : Type := extreme_heat | freezing | high_winds | storm.

Inductive Value : Type :=
| Num (q : Q)
| Text (s : string).

(** The pieces of a formatted message: literal text and interpolated
    values (the rendering of a number is left to the reader of the
    message). *)
Inductive Fragment : Type :=
| Lit (s : string)
| Interp (v : Value).

Record Alert : Type := mkAlert {
  alert_type : AlertType;
  alert_date : string;
  alert_value : Value;
  alert_message : list Fragment
}.

(** [d.get(key, default)] *)
Definition get {A : Type} (field : option A) (default : A) : A :=
  match field with
  | Some v => v
  | None => default
  end.

(** Lower-casing of ASCII text: A-Z become a-z. *)
Definition lower_char (c : ascii) : ascii :=
  let n := nat_of_ascii c in
  if ((65 <=? n) && (n <=? 90))%nat then ascii_of_nat (n + 32) else c.

Fixpoint lower_ascii (s : string) : string :=
  match s with
  | EmptyString => EmptyString
  | String c s' => String (lower_char c) (lower_ascii s')
  end.

Definition is_ascii (s : string) : bool :=
  forallb (fun c => (nat_of_ascii c <? 128)%nat) (list_ascii_of_string s).

(** [str.lower]: the case mapping of Unicode, a parameter; on ASCII
    text it is the lower-casing of the letters A-Z. *)
Class StrLower : Type := {
  lower : string -> string;
  lower_on_ascii : forall s, is_ascii s = true -> lower s = lower_ascii s
}.

Section WithLower.
Context {sl : StrLower}.

(** [keyword in s] *)
Fixpoint contains (keyword s : string) : bool :=
  prefix keyword s
  || match s with
     | EmptyString => false
     | String _ s' => contains keyword s'
     end.

Definition storm_alert (date description : string) : Alert :=
  mkAlert storm date (Text description)
          [Lit "Storm warning: "; Interp (Text description);
           Lit " expected on "; Interp (Text date)].

(** The loop over the keywords, left at the first match. *)
Fixpoint scan_keywords (keywords : list string) (date description : string)
         (alerts : list Alert) : list Alert :=
  match keywords with
  | [] => alerts
  | keyword :: rest =>
      if contains keyword description
      then alerts ++ [storm_alert date description]
      else scan_keywords rest date description alerts
  end.

Definition heat_alert (date : string) (temp : Q) : Alert :=
  mkAlert extreme_heat date (Num temp)
          [Lit "Extreme heat warning: "; Interp (Num temp);
           Lit "°C expected on "; Interp (Text date)].

Definition freezing_alert (date : string) (temp : Q) : Alert :=
  mkAlert freezing date (Num temp)
          [Lit "Freezing conditions warning: "; Interp (Num temp);
           Lit "°C expected on "; Interp (Text date)].

Definition wind_alert (date : string) (wind : Q) : Alert :=
  mkAlert high_winds date (Num wind)
          [Lit "High wind warning: "; Interp (Num wind);
           Lit " m/s expected on "; Interp (Text date)].

(** The body of the loop over the forecast points. *)
Definition analyze_point (self : SmartAlertSystem) (alerts : list Alert)
           (forecast : Forecast) : list Alert :=
  let date := get (f_timestamp forecast) (get (f_date forecast) ""%string) in
  let temp := get (f_temperature forecast) 0 in
  let wind := get (f_wind_speed forecast) 0 in
  let description := lower (get (f_description forecast) ""%string) in
  let alerts :=
    if Qle_bool (extreme_heat_threshold self) temp
    then alerts ++ [heat_alert date temp] else alerts in
  let alerts :=
    if Qle_bool temp (freezing_threshold self)
    then alerts ++ [freezing_alert date temp] else alerts in
  let alerts :=
    if Qle_bool (high_wind_threshold self) wind
    then alerts ++ [wind_alert date wind] else alerts in
  scan_keywords (storm_keywords self) date description alerts.

Definition analyze_forecast (self : SmartAlertSystem)
           (forecast_data : list Forecast) : list Alert :=
  fold_left (analyze_point self) forecast_data [].

Definition set_thresholds (self : SmartAlertSystem)
           (extreme_heat freezing high_wind heavy_rain : option Q)
  : SmartAlertSystem :=
  let self :=
    match extreme_heat with
    | Some v => mkSmartAlertSystem v (freezing_threshold self)
                  (high_wind_threshold self) (heavy_rain_threshold self)
                  (storm_keywords self)
    | None => self
    end in
  let self :=
    match freezing with
    | Some v => mkSmartAlertSystem (extreme_heat_threshold self) v
                  (high_wind_threshold self) (heavy_rain_threshold self)
                  (storm_keywords self)
    | None => self
    end in
  let self :=
    match high_wind with
    | Some v => mkSmartAlertSystem (extreme_heat_threshold self)
                  (freezing_threshold self) v (heavy_rain_threshold self)
                  (storm_keywords self)
    | None => self
    end in
  match heavy_rain with
  | Some v => mkSmartAlertSystem (extreme_heat_threshold self)
                (freezing_threshold self) (high_wind_threshold self) v
                (storm_keywords self)
  | None => self
  end.

Definition is_storm (a : Alert) : bool :=
  match alert_type a with storm => true | _ => false end.

Definition is_extreme_heat (a : Alert) : bool :=
  match alert_type a with extreme_heat => true | _ => false end.

(** The date a point is reported under. *)
Definition point_date (p : Forecast) : string :=
  get (f_timestamp p) (get (f_date p) ""%string).

(** The text the storm keywords are looked up in. *)
Definition point_description (p : Forecast) : string :=
  lower (get (f_description p) ""%string).

(** A threshold after an update that may or may not name it. *)
Definition override (new : option Q) (old : Q) : Q :=
  match new with
  | Some v => v
  | None => old
  end.

(** A point with its missing temperature, wind speed and description
    written out as 0, 0 and the empty text. *)
Definition with_defaults (p : Forecast) : Forecast :=
  mkForecast (f_timestamp p) (f_date p)
             (Some (get (f_temperature p) 0))
             (Some (get (f_wind_speed p) 0))
             (Some (get (f_description p) ""%string)).

Definition is_freezing (a : Alert) : bool :=
  match alert_type a with freezing => true | _ => false end.

Definition is_high_winds (a : Alert) : bool :=
  match alert_type a with high_winds => true | _ => false end.

(** The temperature and wind speed a point is judged on. *)
Definition point_temp (p : Forecast) : Q := get (f_temperature p) 0.

Definition point_wind (p : Forecast) : Q := get (f_wind_speed p) 0.

(** Some keyword occurs in the description of the point. *)
Definition storm_match (self : SmartAlertSystem) (p : Forecast) : bool :=
  existsb (fun kw => contains kw (point_description p)) (storm_keywords self).

(** An alert that is raised or not. *)
Definition optional (fires : bool) (a : Alert) : list Alert :=
  if fires then [a] else [].

(** No rule fires on the point. *)
Definition calm (self : SmartAlertSystem) (p : Forecast) : bool :=
  negb (Qle_bool (extreme_heat_threshold self) (point_temp p))
  && negb (Qle_bool (point_temp p) (freezing_threshold self))
  && negb (Qle_bool (high_wind_threshold self) (point_wind p))
  && negb (storm_match self p).

(** The later of two optional overrides. *)
Definition orelse (later earlier : option Q) : option Q :=
  match later with
  | Some _ => later
  | None => earlier
  end.

(** The value of a storm alert as the specification words it: the
    description of the point, as given. *)
Definition storm_value_claim (self : SmartAlertSystem) (p : Forecast) : Prop :=
  forall a,
    In a (filter is_storm (analyze_forecast self [p])) ->
    alert_value a = Text (get (f_description p) ""%string).

End WithLower.

(** The case mapping restricted to ASCII, to run the system on ASCII
    text. *)
Definition ascii_lower : StrLower := {|
  lower := lower_ascii;
  lower_on_ascii := fun s _ => eq_refl
|}.

(** A mild day with a storm in its description. *)
Definition stormy_point : Forecast :=
  mkForecast (Some "2024-07-01"%string) None (Some 20) (Some 5)
             (Some "Severe Thunderstorm Warning"%string).

End Alerts.

(** ** The request handlers that drive the two classes *)

Module App.
Import Calendar Features Predictor.

(** What the call to the weather data service gave: a failure of the
    request, or the list carried by the JSON body. *)
Inductive Upstream (A : Type) : Type :=
| RequestFailed (message : string)
| Payload (data : A).

Arguments RequestFailed {A} message.
Arguments Payload {A} data.

Definition MODEL_TYPE : string := "RandomForestRegressor".

Definition MODEL_FEATURES : list string :=
  ["day_of_year"; "month"; "day"; "hour"; "temperature_rolling_avg";
   "humidity_rolling_avg"; "pressure_rolling_avg"]%string.

Section Handlers.
Context {sk : Sklearn} {lim : TimestampLimits}.

(** The JSON body and status of [/api/analytics/ai-prediction]. *)
Inductive PredictionResponse : Type :=
| PredictionOk (city : string) (predictions : option (list PredictionPoint))
               (model_type : string) (features : list string)
| PredictionBadRequest (city : string) (error : string)
| PredictionUpstreamError (error : string).

(** [ai_prediction]: the response, or the exception that leaves the
    handler, with the module-level predictor and the file system as the
    request leaves them. *)
Definition ai_prediction (weather_predictor : WeatherTrendPredictor)
           (fs : FileSystem) (city : string) (days : Z)
           (upstream : Upstream (list Observation))
  : result PredictionResponse * WeatherTrendPredictor * FileSystem :=
  match upstream with
  | RequestFailed message =>
      (Ok (PredictionUpstreamError message), weather_predictor, fs)
  | Payload historical_data =>
      if (length historical_data <? 5)%nat
      then (Ok (PredictionBadRequest
                  city "Not enough historical data for AI prediction"),
            weather_predictor, fs)
      else
        let '(trained_ok, weather_predictor', fs') :=
          train weather_predictor fs historical_data in
        match trained_ok with
        | Raise e => (Raise e, weather_predictor', fs')
        | Ok _ =>
            match predict weather_predictor' historical_data days with
            | Raise e => (Raise e, weather_predictor', fs')
            | Ok predictions =>
                (Ok (PredictionOk city predictions MODEL_TYPE MODEL_FEATURES),
                 weather_predictor', fs')
            end
        end
  end.

End Handlers.

(** The JSON body and status of [/api/analytics/severe-weather-alert]. *)
Inductive SevereWeatherResponse : Type :=
| SevereWeatherOk (city : string) (has_alerts : bool) (alerts : list Alerts.Alert)
| SevereWeatherUpstreamError (error : string).

Definition get_severe_weather_alert {sl : Alerts.StrLower}
           (smart_alert_system : Alerts.SmartAlertSystem)
           (city : string) (upstream : Upstream (list Alerts.Forecast))
  : SevereWeatherResponse :=
  match upstream with
  | RequestFailed message => SevereWeatherUpstreamError message
  | Payload forecast =>
      let alerts := Alerts.analyze_forecast smart_alert_system forecast in
      SevereWeatherOk city (0 <? length alerts)%nat alerts
  end.

End App.

(** ** Calendar facts *)

Module CalendarFacts.
Import Calendar.

Lemma is_leap_periodic (y q : Z) : is_leap (400 * q + y) = is_leap y.
Proof.
  unfold is_leap.
  replace (400 * q + y) with (y + (100 * q) * 4) at 1 by ring.
  replace (400 * q + y) with (y + (4 * q) * 100) at 1 by ring.
  replace (400 * q + y) with (y + q * 400) by ring.
  rewrite !Z_mod_plus_full. reflexivity.
Qed.

Lemma days_in_month_periodic (y q m : Z) :
  days_in_month (400 * q + y) m = days_in_month y m.
Proof. unfold days_in_month. now rewrite is_leap_periodic. Qed.

Lemma days_before_month_periodic (y q m : Z) :
  days_before_month (400 * q + y) m = days_before_month y m.
Proof. unfold days_before_month. now rewrite is_leap_periodic. Qed.

Lemma days_before_year_periodic (y q : Z) :
  days_before_year (400 * q + y) = DI400Y * q + days_before_year y.
Proof.
  unfold days_before_year, DI400Y. cbv zeta.
  replace (400 * q + y - 1) with (y - 1 + (100 * q) * 4) at 2 by ring.
  replace (400 * q + y - 1) with (y - 1 + (4 * q) * 100) at 2 by ring.
  replace (400 * q + y - 1) with (y - 1 + q * 400) at 2 by ring.
  rewrite !Z_div_plus_full by lia. ring.
Qed.

Lemma ymd2ord_periodic (y q m d : Z) :
  ymd2ord (400 * q + y) m d = DI400Y * q + ymd2ord y m d.
Proof.
  unfold ymd2ord.
  rewrite days_before_year_periodic, days_before_month_periodic. ring.
Qed.

Lemma next_day_shift (q : Z) (ymd : Z * Z * Z) :
  next_day (shift_year (400 * q) ymd) = shift_year (400 * q) (next_day ymd).
Proof.
  destruct ymd as [[y m] d]. unfold next_day, shift_year.
  rewrite days_in_month_periodic.
  destruct (d <? days_in_month y m); [reflexivity|].
  destruct (m <? 12); [reflexivity|].
  f_equal. f_equal. ring.
Qed.

Lemma cycle2ymd_shift (b r : Z) :
  cycle2ymd b r = shift_year b (cycle2ymd 0 r).
Proof.
  unfold cycle2ymd. cbv zeta.
  repeat match goal with
         | |- context [if ?c then _ else _] => destruct c
         end; unfold shift_year; f_equal; f_equal; ring.
Qed.

Lemma ymd_eqb_eq (a b : Z * Z * Z) : ymd_eqb a b = true -> a = b.
Proof.
  destruct a as [[y1 m1] d1], b as [[y2 m2] d2]. unfold ymd_eqb.
  rewrite !andb_true_iff, !Z.eqb_eq. intros [[-> ->] ->]. reflexivity.
Qed.

Lemma cycle_walk_spec (n : nat) :
  forall prev r, cycle_walk prev r n = true ->
  prev = cycle2ymd 0 (r - 1) ->
  forall x, r <= x < r + Z.of_nat n ->
  cycle2ymd 0 x = next_day (cycle2ymd 0 (x - 1)).
Proof.
  induction n as [|n IH]; intros prev r H Hprev x Hx; [lia|].
  cbn [cycle_walk] in H. apply andb_true_iff in H. destruct H as [Hr Hrest].
  apply ymd_eqb_eq in Hr.
  destruct (Z.eq_dec x r) as [->|Hne]; [now rewrite Hr, Hprev|].
  apply (IH (cycle2ymd 0 r) (r + 1) Hrest); [|lia].
  f_equal. ring.
Qed.

Lemma cycle_walk_checked :
  cycle_walk (cycle2ymd 0 0) 1 (Z.to_nat 146096) = true.
Proof. vm_compute. reflexivity. Qed.

Lemma cycle_step (r : Z) :
  0 <= r < 146096 -> cycle2ymd 0 (r + 1) = next_day (cycle2ymd 0 r).
Proof.
  intros Hr.
  rewrite (cycle_walk_spec _ _ 1 cycle_walk_checked eq_refl (r + 1)) by lia.
  do 2 f_equal. ring.
Qed.

(** The date of the next ordinal is the next calendar day. *)
Theorem ord2ymd_succ (n : Z) : ord2ymd (n + 1) = next_day (ord2ymd n).
Proof.
  unfold ord2ymd. cbv zeta.
  set (n0 := n - 1). replace (n + 1 - 1) with (n0 + 1) by (unfold n0; ring).
  assert (Hr : 0 <= n0 mod DI400Y < DI400Y) by (apply Z.mod_pos_bound; reflexivity).
  assert (Hn : n0 = DI400Y * (n0 / DI400Y) + n0 mod DI400Y)
    by (apply Z.div_mod; discriminate).
  set (q := n0 / DI400Y) in *. set (r := n0 mod DI400Y) in *.
  unfold DI400Y in Hr.
  destruct (Z.eq_dec r 146096) as [Hlast | Hnot].
  - assert (Hq : (n0 + 1) / DI400Y = q + 1).
    { symmetry. apply (Z.div_unique _ _ _ 0); unfold DI400Y in *; lia. }
    assert (Hm : (n0 + 1) mod DI400Y = 0).
    { symmetry. apply (Z.mod_unique _ _ (q + 1)); unfold DI400Y in *; lia. }
    rewrite Hq, Hm, Hlast.
    rewrite (cycle2ymd_shift ((q + 1) * 400)), (cycle2ymd_shift (q * 400)).
    replace (q * 400) with (400 * q) by ring.
    change (cycle2ymd 0 146096) with (400, 12, 31).
    change (cycle2ymd 0 0) with (1, 1, 1).
    rewrite next_day_shift. unfold shift_year, next_day.
    change (31 <? days_in_month 400 12) with false.
    change (12 <? 12) with false. cbv iota.
    f_equal. f_equal. ring.
  - assert (Hq : (n0 + 1) / DI400Y = q).
    { symmetry. apply (Z.div_unique _ _ _ (r + 1)); unfold DI400Y in *; lia. }
    assert (Hm : (n0 + 1) mod DI400Y = r + 1).
    { symmetry. apply (Z.mod_unique _ _ q); unfold DI400Y in *; lia. }
    rewrite Hq, Hm.
    rewrite (cycle2ymd_shift (q * 400) (r + 1)), (cycle2ymd_shift (q * 400) r).
    replace (q * 400) with (400 * q) by ring.
    rewrite cycle_step by lia. now rewrite next_day_shift.
Qed.

Lemma all_from_spec (P : Z -> bool) (n : nat) :
  forall z, all_from P z n = true ->
  forall x, z <= x < z + Z.of_nat n -> P x = true.
Proof.
  induction n as [|n IH]; intros z H x Hx; [lia|].
  cbn [all_from] in H. apply andb_true_iff in H. destruct H as [Hz Hrest].
  destruct (Z.eq_dec x z) as [->|Hne]; [exact Hz|].
  apply (IH (z + 1) Hrest). lia.
Qed.

Lemma year_start_checked : all_from year_start_ok 1 400 = true.
Proof. vm_compute. reflexivity. Qed.

Lemma ord2ymd_year_start (y : Z) : ord2ymd (ymd2ord y 1 1) = (y, 1, 1).
Proof.
  set (q := (y - 1) / 400). set (y0 := (y - 1) mod 400 + 1).
  assert (Hy : y = 400 * q + y0).
  { unfold q, y0. pose proof (Z.div_mod (y - 1) 400). lia. }
  assert (Hy0 : 1 <= y0 < 1 + Z.of_nat 400).
  { unfold y0. pose proof (Z.mod_pos_bound (y - 1) 400). lia. }
  pose proof (all_from_spec year_start_ok _ 1 year_start_checked y0 Hy0) as Hok.
  unfold year_start_ok in Hok. rewrite !andb_true_iff in Hok.
  destruct Hok as [[Hlo Hhi] Heq].
  apply Z.leb_le in Hlo. apply Z.ltb_lt in Hhi. apply ymd_eqb_eq in Heq.
  rewrite Hy, ymd2ord_periodic. unfold ord2ymd, ymd2ord. cbv zeta.
  change (days_before_month y0 1) with 0.
  set (c := days_before_year y0) in *.
  replace (DI400Y * q + (c + 0 + 1) - 1) with (c + q * DI400Y) by ring.
  rewrite Z_div_plus_full by (unfold DI400Y; lia).
  rewrite Z_mod_plus_full.
  rewrite Z.div_small, Z.mod_small by lia.
  rewrite cycle2ymd_shift, Heq. unfold shift_year. do 2 f_equal. ring.
Qed.

Lemma days_before_month_succ (y m : Z) :
  1 <= m < 12 ->
  days_before_month y (m + 1) = days_before_month y m + days_in_month y m.
Proof.
  intros Hm. unfold days_before_month, days_in_month.
  assert (Hcases : m = 1 \/ m = 2 \/ m = 3 \/ m = 4 \/ m = 5 \/ m = 6 \/
                   m = 7 \/ m = 8 \/ m = 9 \/ m = 10 \/ m = 11) by lia.
  destruct (is_leap y);
    repeat (destruct Hcases as [-> | Hcases]; [reflexivity|]);
    subst m; reflexivity.
Qed.

Lemma days_in_month_bounds (y m : Z) :
  1 <= m <= 12 -> 28 <= days_in_month y m <= 31.
Proof.
  intros Hm. unfold days_in_month.
  assert (Hc : m = 1 \/ m = 2 \/ m = 3 \/ m = 4 \/ m = 5 \/ m = 6 \/
               m = 7 \/ m = 8 \/ m = 9 \/ m = 10 \/ m = 11 \/ m = 12) by lia.
  destruct (is_leap y);
    repeat (destruct Hc as [Hc | Hc]; [rewrite Hc; cbv; intuition discriminate|]);
    rewrite Hc; cbv; intuition discriminate.
Qed.

(** The ordinal of a valid date converts back to that date. *)
Theorem ord2ymd_ymd2ord (y m d : Z) :
  valid_date (y, m, d) = true -> ord2ymd (ymd2ord y m d) = (y, m, d).
Proof.
  unfold valid_date. rewrite !andb_true_iff, !Z.leb_le.
  intros [[[Hm1 Hm12] Hd1] Hd].
  assert (Hday : forall m', 1 <= m' <= 12 ->
            ord2ymd (ymd2ord y m' 1) = (y, m', 1) ->
            forall d', 1 <= d' <= days_in_month y m' ->
            ord2ymd (ymd2ord y m' d') = (y, m', d')).
  { intros m' Hm' Hfirst d' Hd'.
    replace d' with (1 + (d' - 1)) by ring.
    assert (Hk : 0 <= d' - 1) by lia.
    assert (Hb : 1 + (d' - 1) <= days_in_month y m') by lia.
    revert Hb. pattern (d' - 1). apply natlike_ind; [| |exact Hk].
    - intros _. exact Hfirst.
    - intros k Hk0 IH Hb.
      replace (ymd2ord y m' (1 + Z.succ k)) with (ymd2ord y m' (1 + k) + 1)
        by (unfold ymd2ord; lia).
      rewrite ord2ymd_succ, IH by lia. unfold next_day.
      replace (1 + k <? days_in_month y m') with true
        by (symmetry; apply Z.ltb_lt; lia).
      f_equal. lia. }
  assert (Hmonth : forall k, 0 <= k -> 1 + k <= 12 ->
            ord2ymd (ymd2ord y (1 + k) 1) = (y, 1 + k, 1)).
  { intros k Hk. pattern k. apply natlike_ind; [| |exact Hk].
    - intros _. apply ord2ymd_year_start.
    - intros j Hj IH Hb.
      assert (Hdim : 28 <= days_in_month y (1 + j) <= 31)
        by (apply days_in_month_bounds; lia).
      replace (ymd2ord y (1 + Z.succ j) 1)
        with (ymd2ord y (1 + j) (days_in_month y (1 + j)) + 1).
      2:{ unfold ymd2ord. replace (1 + Z.succ j) with (1 + j + 1) by lia.
          rewrite days_before_month_succ by lia. ring. }
      rewrite ord2ymd_succ.
      rewrite (Hday (1 + j)) by (try apply IH; lia).
      unfold next_day. rewrite Z.ltb_irrefl.
      replace (1 + j <? 12) with true by (symmetry; apply Z.ltb_lt; lia).
      do 2 f_equal. lia. }
  apply Hday; [lia| |lia].
  replace m with (1 + (m - 1)) by ring. apply Hmonth; lia.
Qed.

End CalendarFacts.

(** ** Rolling mean: what the accumulator computes *)

Module PandasFacts.
Import Pandas.
Local Open Scope Q_scope.

Lemma firstn_add {A : Type} (n m : nat) :
  forall l : list A, firstn (n + m) l = firstn n l ++ firstn m (skipn n l).
Proof.
  induction n as [|n IH]; intros [|x l]; cbn; try reflexivity.
  - now rewrite firstn_nil.
  - now rewrite IH.
Qed.

Lemma slice_app {A : Type} (l : list A) (a b c : nat) :
  (a <= b <= c)%nat -> slice l a b ++ slice l b c = slice l a c.
Proof.
  intros H. unfold slice.
  replace (c - a)%nat with ((b - a) + (c - b))%nat by lia.
  rewrite firstn_add, skipn_skipn.
  now replace (b - a + a)%nat with b by lia.
Qed.

Lemma present_app (l1 l2 : Series) :
  present (l1 ++ l2) = present l1 ++ present l2.
Proof. apply flat_map_app. Qed.

Lemma Qsum_app (l1 l2 : list Q) : Qsum (l1 ++ l2) == Qsum l1 + Qsum l2.
Proof.
  induction l1 as [|x l1 IH]; unfold Qsum in *; cbn [app fold_right]; [ring|].
  rewrite IH. ring.
Qed.

Lemma present_some (v : Q) (l : Series) : present (Some v :: l) = v :: present l.
Proof. reflexivity. Qed.

Lemma present_none (l : Series) : present (None :: l) = present l.
Proof. reflexivity. Qed.

Lemma fold_add_mean (l : Series) :
  forall st,
    nobs (fold_left add_mean l st)
    = (nobs st + Z.of_nat (length (present l)))%Z
    /\ sum_x (fold_left add_mean l st) == sum_x st + Qsum (present l).
Proof.
  induction l as [|[v|] l IH]; intros st; cbn [fold_left].
  - split; [cbn [present flat_map length]; lia|].
    unfold present, Qsum; cbn [flat_map fold_right]. ring.
  - destruct (IH (add_mean st (Some v))) as [Hn Hs]. rewrite Hn, Hs.
    rewrite present_some. unfold Qsum.
    cbn [add_mean nobs sum_x length fold_right]. split; [lia|ring].
  - rewrite present_none. exact (IH st).
Qed.

Lemma fold_remove_mean (l : Series) :
  forall st,
    nobs (fold_left remove_mean l st)
    = (nobs st - Z.of_nat (length (present l)))%Z
    /\ sum_x (fold_left remove_mean l st) == sum_x st - Qsum (present l).
Proof.
  induction l as [|[v|] l IH]; intros st; cbn [fold_left].
  - split; [cbn [present flat_map length]; lia|].
    unfold present, Qsum; cbn [flat_map fold_right]. ring.
  - destruct (IH (remove_mean st (Some v))) as [Hn Hs]. rewrite Hn, Hs.
    rewrite present_some. unfold Qsum.
    cbn [remove_mean nobs sum_x length fold_right]. split; [lia|ring].
  - rewrite present_none. exact (IH st).
Qed.

Lemma tracks_first (values : Series) (window : nat) :
  tracks values (win_start window 0) (win_end 0)
         (fold_left add_mean (slice values (win_start window 0) (win_end 0))
                    (mkRollState 0 0)).
Proof.
  destruct (fold_add_mean (slice values (win_start window 0) (win_end 0))
                          (mkRollState 0 0)) as [Hn Hs].
  split; [rewrite Hn | rewrite Hs]; cbn [nobs sum_x]; [lia|ring].
Qed.

Lemma tracks_next (values : Series) (window j : nat) (st : RollState) :
  tracks values (win_start window j) (win_end j) st ->
  tracks values (win_start window (S j)) (win_end (S j))
         (fold_left add_mean (slice values (win_end j) (win_end (S j)))
            (fold_left remove_mean
               (slice values (win_start window j) (win_start window (S j)))
               st)).
Proof.
  intros [Hn Hs].
  set (s0 := win_start window j) in *. set (e0 := win_end j) in *.
  set (s1 := win_start window (S j)). set (e1 := win_end (S j)).
  assert (Hord : (s0 <= s1 <= e1 /\ s0 <= e0 <= e1)%nat)
    by (unfold s0, s1, e0, e1, win_start, win_end; lia).
  destruct (fold_remove_mean (slice values s0 s1) st) as [Hrn Hrs].
  destruct (fold_add_mean (slice values e0 e1)
              (fold_left remove_mean (slice values s0 s1) st)) as [Han Has].
  assert (Hsplit : present (slice values s0 e0) ++ present (slice values e0 e1)
                   = present (slice values s0 s1) ++ present (slice values s1 e1)).
  { rewrite <- !present_app, !slice_app by lia. reflexivity. }
  assert (Hlen := f_equal (@length Q) Hsplit).
  rewrite !length_app in Hlen.
  assert (Hsum : Qsum (present (slice values s0 e0))
                 + Qsum (present (slice values e0 e1))
                 == Qsum (present (slice values s0 s1))
                    + Qsum (present (slice values s1 e1))).
  { rewrite <- !Qsum_app, Hsplit. reflexivity. }
  split.
  - rewrite Han, Hrn, Hn. lia.
  - rewrite Has, Hrs, Hs.
    setoid_replace (Qsum (present (slice values s1 e1)))
      with (Qsum (present (slice values s0 e0))
            + Qsum (present (slice values e0 e1))
            - Qsum (present (slice values s0 s1)))
      by (rewrite Hsum; ring).
    ring.
Qed.

Lemma calc_mean_tracks (values : Series) (minp : Z) (a b : nat)
      (st : RollState) :
  tracks values a b st ->
  cell_eq (calc_mean minp st) (window_mean minp (slice values a b)).
Proof.
  intros [Hn Hs]. unfold calc_mean, window_mean. cbv zeta. rewrite Hn.
  destruct ((minp <=? _) && (0 <? _))%Z; constructor.
  unfold mean. rewrite Hs. reflexivity.
Qed.

Lemma roll_loop_nth (values : Series) (window : nat) (minp : Z) (n : nat) :
  forall i st,
    match i with
    | O => True
    | S j => tracks values (win_start window j) (win_end j) st
    end ->
    forall k, (k < n)%nat ->
    exists c,
      nth_error (roll_loop values window minp n i st) k = Some c
      /\ cell_eq c (window_mean minp
                      (slice values (win_start window (i + k))
                             (win_end (i + k)))).
Proof.
  induction n as [|n IH]; intros i st Hst k Hk; [lia|].
  cbn [roll_loop]. cbv zeta.
  set (st' := match i with
              | O => _
              | S j => _
              end).
  assert (Hst' : tracks values (win_start window i) (win_end i) st').
  { unfold st'. destruct i as [|j]; [apply tracks_first|].
    now apply tracks_next. }
  destruct k as [|k].
  - exists (calc_mean minp st'). split; [reflexivity|].
    rewrite Nat.add_0_r. now apply calc_mean_tracks.
  - cbn [nth_error].
    destruct (IH (S i) st' Hst' k ltac:(lia)) as (c & Hc & Heq).
    exists c. split; [exact Hc|].
    now replace (i + S k)%nat with (S i + k)%nat by lia.
Qed.

Lemma length_roll_loop (values : Series) (window : nat) (minp : Z) (n : nat) :
  forall i st, length (roll_loop values window minp n i st) = n.
Proof. induction n as [|n IH]; intros i st; cbn; [|rewrite IH]; reflexivity. Qed.

Lemma length_rolling_mean (window : nat) (minp : Z) (values : Series) :
  length (rolling_mean window minp values) = length values.
Proof. apply length_roll_loop. Qed.

(** Row [i] of the rolling mean is the mean of the non-missing cells of
    rows [max(0, i + 1 - window) .. i]. *)
Theorem rolling_mean_nth (window : nat) (minp : Z) (values : Series) (i : nat) :
  (i < length values)%nat ->
  exists c,
    nth_error (rolling_mean window minp values) i = Some c
    /\ cell_eq c (window_mean minp
                    (slice values (win_start window i) (win_end i))).
Proof.
  intros Hi. unfold rolling_mean.
  exact (roll_loop_nth values window minp (length values) 0
                       (mkRollState 0 0) I i Hi).
Qed.

End PandasFacts.

(** ** Feature builder: the rolling-average columns *)

Module FeatureFacts.
Import Calendar Pandas PandasFacts Features.
Local Open Scope Q_scope.

Lemma nth_error_combine {A B : Type} (l : list A) :
  forall (l' : list B) (i : nat),
    nth_error (combine l l') i
    = match nth_error l i, nth_error l' i with
      | Some a, Some b => Some (a, b)
      | _, _ => None
      end.
Proof.
  induction l as [|a l IH]; intros [|b l'] [|i]; cbn; try reflexivity.
  - now destruct (nth_error l i).
  - apply IH.
Qed.

Lemma slice_map {A B : Type} (g : A -> B) (l : list A) (a b : nat) :
  slice (map g l) a b = map g (slice l a b).
Proof. unfold slice. now rewrite skipn_map, firstn_map. Qed.

Lemma length_slice {A : Type} (l : list A) (a b : nat) :
  length (slice l a b) = Nat.min (b - a) (length l - a).
Proof. unfold slice. now rewrite length_firstn, length_skipn. Qed.

Lemma slice_values_at {A : Type} (d : A) (l : list A) (a b : nat) :
  (b <= length l)%nat -> slice l a b = values_at d l (seq a (b - a)).
Proof.
  intros Hb. apply nth_error_ext. intros k. unfold slice, values_at.
  rewrite nth_error_firstn, nth_error_skipn, nth_error_map, nth_error_seq.
  destruct (k <? b - a)%nat eqn:Hk; [|reflexivity].
  apply Nat.ltb_lt in Hk. cbn [option_map].
  apply nth_error_nth'. lia.
Qed.

Lemma present_map_Some (xs : list Q) : present (map Some xs) = xs.
Proof.
  induction xs as [|x xs IH]; [reflexivity|].
  cbn [map]. now rewrite present_some, IH.
Qed.

(** On a column without missing cells the window mean is the plain mean
    of the trailing window. *)
Lemma window_mean_complete (xs : list Q) (i : nat) :
  (i < length xs)%nat ->
  window_mean 1 (slice (map Some xs) (win_start 5 i) (win_end i))
  = Some (trailing_mean xs i).
Proof.
  intros Hi. unfold window_mean, trailing_mean, trailing_indices,
             win_start, win_end. cbv zeta.
  rewrite slice_map, present_map_Some.
  replace (i + 1 - 5)%nat with (i - 4)%nat by lia.
  rewrite <- (slice_values_at 0 xs (i - 4) (i + 1)) by lia.
  assert (Hlen : (1 <= length (slice xs (i - 4) (i + 1)))%nat)
    by (rewrite length_slice; lia).
  replace ((1 <=? _) && (0 <? _))%Z with true; [reflexivity|].
  symmetry. apply andb_true_iff. split; [apply Z.leb_le | apply Z.ltb_lt]; lia.
Qed.

Lemma rolling_mean_complete (xs : list Q) (i : nat) :
  (i < length xs)%nat ->
  exists c,
    nth_error (rolling_mean 5 1 (map Some xs)) i = Some c
    /\ cell_eq c (Some (trailing_mean xs i)).
Proof.
  intros Hi.
  destruct (rolling_mean_nth 5 1 (map Some xs) i) as (c & Hc & Heq);
    [now rewrite length_map|].
  exists c. split; [exact Hc|]. now rewrite <- window_mean_complete.
Qed.

Lemma pressure_column_uniform (data : list Observation) :
  uniform_pressure data = true ->
  pressure_column data = map Some (map pressure_or_default data).
Proof.
  unfold uniform_pressure, pressure_column. rewrite map_map.
  destruct (existsb has_pressure data) eqn:Hex.
  - rewrite orb_false_r. intros Hall. apply map_ext_in. intros o Ho.
    rewrite forallb_forall in Hall. specialize (Hall o Ho).
    unfold has_pressure, pressure_or_default in *.
    now destruct (pressure o).
  - intros _. clear -Hex. induction data as [|o data IH]; [reflexivity|].
    cbn [existsb] in Hex. apply orb_false_iff in Hex. destruct Hex as [Ho Hd].
    cbn [length repeat map]. rewrite (IH Hd). f_equal.
    unfold has_pressure, pressure_or_default in *.
    now destruct (pressure o).
Qed.

Lemma length_pressure_column (data : list Observation) :
  length (pressure_column data) = length data.
Proof.
  unfold pressure_column. destruct (existsb has_pressure data).
  - apply length_map.
  - apply repeat_length.
Qed.

(** The row built for record [i], from the cells of the three columns. *)
Lemma prepare_features_row (data : list Observation) (i : nat) (o : Observation) :
  nth_error data i = Some o ->
  forall temp_avg hum_avg pres_avg t h p,
    nth_error temp_avg i = Some t ->
    nth_error hum_avg i = Some h ->
    nth_error pres_avg i = Some p ->
    nth_error (map make_row
                   (combine data (combine temp_avg (combine hum_avg pres_avg)))) i
    = Some (make_row (o, (t, (h, p)))).
Proof.
  intros Ho temp_avg hum_avg pres_avg t h p Ht Hh Hp.
  rewrite nth_error_map, !nth_error_combine, Ho, Ht, Hh, Hp. reflexivity.
Qed.

Lemma nth_error_pressure_column (data : list Observation) (i : nat)
      (o : Observation) :
  nth_error data i = Some o ->
  nth_error (pressure_column data) i
  = Some (if existsb has_pressure data then pressure o else Some 1013).
Proof.
  intros Ho. unfold pressure_column.
  destruct (existsb has_pressure data).
  - now rewrite nth_error_map, Ho.
  - apply nth_error_repeat. apply nth_error_Some. now rewrite Ho.
Qed.

Lemma cell_eq_refl (c : option Q) : cell_eq c c.
Proof. destruct c; constructor; reflexivity. Qed.

(** The cell of row [i] of a rolled column without missing cells. *)
Lemma rolled_cell_complete (xs : list Q) (i : nat) (c : option Q) :
  nth_error (rolling_mean 5 1 (map Some xs)) i = Some c ->
  cell_eq c (Some (trailing_mean xs i)).
Proof.
  intros Hc.
  assert (Hi : (i < length xs)%nat).
  { rewrite <- (length_map Some), <- (length_rolling_mean 5 1).
    apply nth_error_Some. now rewrite Hc. }
  destruct (rolling_mean_complete xs i Hi) as (c' & Hc' & Heq).
  rewrite Hc in Hc'. now injection Hc' as ->.
Qed.

(** The cell of row [i] of a rolled column, missing cells allowed. *)
Lemma rolled_cell (col : Series) (i : nat) (c : option Q) :
  nth_error (rolling_mean 5 1 col) i = Some c ->
  cell_eq c (window_mean 1 (values_at None col (trailing_indices i))).
Proof.
  intros Hc.
  assert (Hi : (i < length col)%nat).
  { rewrite <- (length_rolling_mean 5 1). apply nth_error_Some. now rewrite Hc. }
  destruct (rolling_mean_nth 5 1 col i Hi) as (c' & Hc' & Heq).
  rewrite Hc in Hc'. injection Hc' as <-.
  replace (values_at None col (trailing_indices i))
    with (slice col (win_start 5 i) (win_end i)); [exact Heq|].
  unfold win_start, win_end, trailing_indices.
  replace (i + 1 - 5)%nat with (i - 4)%nat by lia.
  apply slice_values_at. lia.
Qed.

(** The row [prepare_features] builds for record [i]: the calendar fields
    of the record and cell [i] of the three columns, rolled when there are
    more than five records. *)
Lemma prepare_features_nth (data : list Observation) (i : nat) (o : Observation) :
  nth_error data i = Some o ->
  exists rows t h p,
    prepare_features data = Ok (rows, map temperature data)
    /\ length rows = length data
    /\ nth_error rows i = Some (make_row (o, (t, (h, p))))
    /\ (if (5 <? length data)%nat then
          nth_error (rolling_mean 5 1 (map Some (map temperature data))) i = Some t
          /\ nth_error (rolling_mean 5 1 (map Some (map humidity data))) i = Some h
          /\ nth_error (rolling_mean 5 1 (pressure_column data)) i = Some p
        else
          t = Some (temperature o) /\ h = Some (humidity o)
          /\ p = (if existsb has_pressure data then pressure o else Some 1013)).
Proof.
  intros Ho.
  assert (Hi : (i < length data)%nat) by (apply nth_error_Some; now rewrite Ho).
  destruct data as [|o0 data']; [now destruct i|].
  set (data := o0 :: data') in *.
  unfold prepare_features. fold data.
  assert (Hp := nth_error_pressure_column data i o Ho).
  destruct (5 <? length data)%nat eqn:Hlen.
  - destruct (rolling_mean_nth 5 1 (map Some (map temperature data)) i)
      as (t & Ht & _); [now rewrite !length_map|].
    destruct (rolling_mean_nth 5 1 (map Some (map humidity data)) i)
      as (h & Hh & _); [now rewrite !length_map|].
    destruct (rolling_mean_nth 5 1 (pressure_column data) i) as (p & Hpp & _);
      [now rewrite length_pressure_column|].
    eexists. exists t, h, p.
    split; [reflexivity|]. split.
    { rewrite length_map, !length_combine, !length_rolling_mean,
        !length_map, length_pressure_column. lia. }
    split; [|now repeat split].
    rewrite map_map in Ht, Hh. now apply prepare_features_row.
  - eexists. do 3 eexists. split; [reflexivity|]. split.
    { rewrite length_map, !length_combine, !length_map,
        length_pressure_column. lia. }
    split; [|repeat split].
    apply prepare_features_row; try eassumption;
      rewrite nth_error_map, Ho; reflexivity.
Qed.

(** C1 (amended): for every record [i] of a non-empty input
    [prepare_features] returns a row; with more than five records its
    rolling-average cells are the arithmetic means of temperature,
    humidity and pressure over the indices [max(0, i-4) .. i] (the pressure
    mean runs over the pressures present in the window, which is the
    pressure-or-1013 mean when every record or no record carries a
    pressure); with at most five records the cells are the record's own
    temperature, humidity and pressure cell, so that the fifth of the
    temperatures 10, 20, 10, 20, 10 has [temp_rolling_avg] 10. *)
Theorem prepare_features_rolling (data : list Observation) (i : nat)
        (o : Observation) :
  nth_error data i = Some o ->
  exists rows row,
    prepare_features data = Ok (rows, map temperature data)
    /\ length rows = length data
    /\ nth_error rows i = Some row
    /\ rolling_cells_ok data i o row.
Proof.
  intros Ho.
  destruct (prepare_features_nth data i o Ho)
    as (rows & t & h & p & Hpf & Hlen & Hrow & Hcells).
  exists rows, (make_row (o, (t, (h, p)))).
  split; [exact Hpf|]. split; [exact Hlen|]. split; [exact Hrow|].
  unfold rolling_cells_ok.
  cbn [make_row temp_rolling_avg humidity_rolling_avg pressure_rolling_avg].
  destruct (5 <? length data)%nat; [|exact Hcells].
  destruct Hcells as (Ht & Hh & Hp).
  split; [now apply rolled_cell_complete|].
  split; [now apply rolled_cell_complete|].
  split; [now apply rolled_cell|].
  intros Hu. rewrite (pressure_column_uniform data Hu) in Hp.
  now apply rolled_cell_complete.
Qed.

(** C1, as stated, fails: the fifth of the five temperatures
    10, 20, 10, 20, 10 gets [temp_rolling_avg] 10 and not the mean 14, and
    a record without pressure among records with one is a missing cell,
    not 1013. *)
Lemma rolling_claim_fails :
  (exists rows targets row,
      prepare_features five_observations = Ok (rows, targets)
      /\ nth_error rows 4 = Some row
      /\ temp_rolling_avg row = Some 10
      /\ trailing_mean (map temperature five_observations) 4 == 14)
  /\ ~ rolling_claim five_observations
  /\ ~ rolling_claim six_mixed_pressure.
Proof.
  split; [|split].
  - do 3 eexists. split; [reflexivity|]. split; [reflexivity|].
    split; reflexivity.
  - intros H.
    destruct (H _ _ 4%nat _ eq_refl eq_refl) as [Ht _].
    inversion Ht as [|a b Hab]; subst. vm_compute in Hab. discriminate.
  - intros H.
    destruct (H _ _ 5%nat _ eq_refl eq_refl) as (_ & _ & Hp).
    inversion Hp.
Qed.

Lemma prepare_features_rolling_witness :
  exists rows row,
    prepare_features five_observations
    = Ok (rows, map temperature five_observations)
    /\ length rows = length five_observations
    /\ nth_error rows 4 = Some row
    /\ rolling_cells_ok five_observations 4 (obs 5 10 None) row.
Proof. apply (prepare_features_rolling five_observations 4). reflexivity. Defined.

(** C9, as stated, fails: a first record without pressure, followed by a
    record with one, gets a missing pressure cell and not 1013. *)
Lemma first_row_claim_fails :
  (exists rows targets row,
      prepare_features late_pressure = Ok (rows, targets)
      /\ nth_error rows 0 = Some row
      /\ pressure_rolling_avg row = None)
  /\ ~ first_row_claim late_pressure.
Proof.
  split.
  - do 3 eexists. split; [reflexivity|]. split; reflexivity.
  - intros H.
    destruct (H _ _ _ _ eq_refl eq_refl eq_refl) as (_ & _ & Hp).
    inversion Hp.
Qed.

Lemma trailing_mean_first (xs : list Q) (x : Q) :
  nth_error xs 0 = Some x -> trailing_mean xs 0 == x.
Proof.
  destruct xs as [|y xs]; [discriminate|]. intros [= ->].
  unfold trailing_mean, mean, values_at, trailing_indices, Qsum.
  cbn. field.
Qed.

(** C9 (amended): for every non-empty input, of any length, the row of
    the first record carries that record's own temperature and humidity as
    rolling averages; its pressure average is the record's own pressure
    when it has one, 1013 when no record of the input has a pressure, and
    a missing cell when the first record has none while another has. *)
Theorem prepare_features_first_row (data : list Observation) (o : Observation) :
  nth_error data 0 = Some o ->
  exists rows row,
    prepare_features data = Ok (rows, map temperature data)
    /\ nth_error rows 0 = Some row
    /\ cell_eq (temp_rolling_avg row) (Some (temperature o))
    /\ cell_eq (humidity_rolling_avg row) (Some (humidity o))
    /\ cell_eq (pressure_rolling_avg row)
               (if existsb has_pressure data then pressure o else Some 1013).
Proof.
  intros Ho.
  destruct (prepare_features_nth data 0 o Ho)
    as (rows & t & h & p & Hpf & _ & Hrow & Hcells).
  exists rows, (make_row (o, (t, (h, p)))).
  split; [exact Hpf|]. split; [exact Hrow|].
  cbn [make_row temp_rolling_avg humidity_rolling_avg pressure_rolling_avg].
  destruct (5 <? length data)%nat.
  - destruct Hcells as (Ht & Hh & Hp).
    assert (Hown : forall (f : Observation -> Q) c,
               nth_error (rolling_mean 5 1 (map Some (map f data))) 0 = Some c ->
               cell_eq c (Some (f o))).
    { intros f c Hc. apply rolled_cell_complete in Hc.
      inversion Hc as [|a b Hab]; subst. constructor. rewrite Hab.
      apply trailing_mean_first. now rewrite nth_error_map, Ho. }
    split; [now apply Hown|]. split; [now apply Hown|].
    apply rolled_cell in Hp.
    replace (values_at None (pressure_column data) (trailing_indices 0))
      with [if existsb has_pressure data then pressure o else Some 1013] in Hp.
    2:{ unfold values_at, trailing_indices. cbn [seq map Nat.sub Nat.add].
        f_equal. symmetry. apply nth_error_nth.
        now apply nth_error_pressure_column. }
    destruct (if existsb has_pressure data then pressure o else Some 1013)
      as [v|]; [|exact Hp].
    inversion Hp as [|a b Hab]; subst. constructor. rewrite Hab.
    unfold mean, Qsum. cbn. field.
  - destruct Hcells as (-> & -> & ->). repeat split; apply cell_eq_refl.
Qed.

Lemma prepare_features_first_row_witness :
  exists rows row,
    prepare_features late_pressure = Ok (rows, map temperature late_pressure)
    /\ nth_error rows 0 = Some row
    /\ cell_eq (temp_rolling_avg row) (Some 10)
    /\ cell_eq (humidity_rolling_avg row) (Some 50)
    /\ cell_eq (pressure_rolling_avg row) None.
Proof. apply (prepare_features_first_row late_pressure (obs 1 10 None)). reflexivity. Defined.

End FeatureFacts.

(** ** WeatherTrendPredictor: life cycle and forecasts *)

Module PredictorFacts.
Import Calendar CalendarFacts Pandas Features FeatureFacts Predictor.

Lemma next_day_later (d : Z * Z * Z) : date_ltb d (next_day d) = true.
Proof.
  destruct d as [[y m] d]. unfold next_day, date_ltb.
  destruct (d <? days_in_month y m); [|destruct (m <? 12) eqn:Hm].
  - rewrite !Z.eqb_refl. replace (d <? d + 1) with true
      by (symmetry; apply Z.ltb_lt; lia).
    now rewrite !orb_true_r.
  - rewrite Z.eqb_refl. replace (m <? m + 1) with true
      by (symmetry; apply Z.ltb_lt; lia).
    now rewrite orb_true_r.
  - replace (y <? y + 1) with true by (symmetry; apply Z.ltb_lt; lia).
    reflexivity.
Qed.

Lemma strftime_render (t : Timestamp) : strftime_ymd t = render_date (date_of t).
Proof. reflexivity. Qed.

(** From the year 1000 on a printed date has the ten characters of
    YYYY-MM-DD. *)
Lemma render_date_length (y m d : Z) :
  1000 <= y <= 9999 -> String.length (render_date (y, m, d)) = 10%nat.
Proof.
  intros Hy. unfold render_date, print_year.
  replace (y <? 10) with false by (symmetry; apply Z.ltb_ge; lia).
  replace (y <? 100) with false by (symmetry; apply Z.ltb_ge; lia).
  replace (y <? 1000) with false by (symmetry; apply Z.ltb_ge; lia).
  reflexivity.
Qed.

(** Before the year 1000 it is shorter: the year is not padded. *)
Lemma render_date_short_year :
  render_date (999, 1, 6) = "999-01-06"%string.
Proof. reflexivity. Qed.

Lemma date_of_shift_days (t : Timestamp) (i : Z) :
  date_of (shift_days t i) = ord2ymd (ordinal t + i).
Proof.
  unfold shift_days. destruct (ord2ymd (ordinal t + i)) as [[y m] d].
  reflexivity.
Qed.

(** Shifting by [n] days is taking the next calendar day [n] times. *)
Lemma shift_days_iter (t : Timestamp) (n : nat) :
  valid_date (date_of t) = true ->
  date_of (shift_days t (Z.of_nat n)) = Nat.iter n next_day (date_of t).
Proof.
  intros Hv. rewrite date_of_shift_days. induction n as [|n IH].
  - cbn [Z.of_nat Nat.iter nat_rect]. rewrite Z.add_0_r. unfold ordinal.
    now apply ord2ymd_ymd2ord.
  - rewrite Nat2Z.inj_succ, <- Z.add_1_r, Z.add_assoc, ord2ymd_succ, IH.
    reflexivity.
Qed.

Lemma last_item_nth {A : Type} (xs : list A) (x : A) :
  nth_error xs (length xs - 1) = Some x -> last_item xs = Ok x.
Proof.
  intros Hx. unfold last_item.
  assert (Hlen : (0 < length xs)%nat).
  { destruct xs; [discriminate|cbn; lia]. }
  assert (Hrev : nth_error (rev xs) 0 = Some x).
  { rewrite nth_error_rev.
    replace (0 <? length xs)%nat with true by (symmetry; now apply Nat.ltb_lt).
    exact Hx. }
  destruct (rev xs) as [|y ys]; [discriminate|].
  now injection Hrev as ->.
Qed.

Lemma combine_map_r {A B : Type} (F : A -> B) (l : list A) :
  combine l (map F l) = map (fun x => (x, F x)) l.
Proof. induction l as [|x l IH]; cbn; [|rewrite IH]; reflexivity. Qed.

Lemma length_py_range (lo hi : Z) : length (py_range lo hi) = Z.to_nat (hi - lo).
Proof. unfold py_range. now rewrite length_map, length_seq. Qed.

Lemma in_py_range (lo hi x : Z) : lo <= x < hi -> In x (py_range lo hi).
Proof.
  intros Hx. unfold py_range. apply in_map_iff.
  exists (Z.to_nat (x - lo)). split; [lia|]. apply in_seq. lia.
Qed.

Lemma py_range_in (lo hi x : Z) : In x (py_range lo hi) -> lo <= x < hi.
Proof.
  unfold py_range. rewrite in_map_iff. intros (n & <- & Hn).
  apply in_seq in Hn. lia.
Qed.

(** A comprehension none of whose elements raises is a [map]. *)
Lemma map_result_ok {A B : Type} (f : A -> result B) (g : A -> B)
      (l : list A) :
  (forall x, In x l -> f x = Ok (g x)) -> map_result f l = Ok (map g l).
Proof.
  induction l as [|x l IH]; intros Hf; [reflexivity|].
  cbn [map_result map]. rewrite (Hf x (or_introl eq_refl)), IH; [reflexivity|].
  intros y Hy. apply Hf. now right.
Qed.

(** A comprehension one of whose elements raises, raises; the exception
    is [e] when the element expression raises nothing else. *)
Lemma map_result_raise {A B : Type} (f : A -> result B) (e : exn)
      (l : list A) (x : A) :
  (forall y e', f y = Raise e' -> e' = e) ->
  In x l -> f x = Raise e -> map_result f l = Raise e.
Proof.
  intros Honly. induction l as [|y l IH]; intros Hin Hx; [contradiction|].
  cbn [map_result]. destruct (f y) as [b|e'] eqn:Hy.
  - destruct Hin as [->|Hin]; [congruence|]. now rewrite IH.
  - now rewrite (Honly y e' Hy).
Qed.

Lemma prepare_features_ok (data : list Observation) :
  data <> [] ->
  exists rows,
    prepare_features data = Ok (rows, map temperature data)
    /\ length rows = length data.
Proof.
  destruct data as [|o data]; [congruence|]. intros _.
  destruct (prepare_features_nth (o :: data) 0 o eq_refl)
    as (rows & t & h & p & Hpf & Hlen & _).
  now exists rows.
Qed.

Section Claims.
Context {sk : Sklearn} {lim : TimestampLimits}.

Lemma add_days_ok (t : Timestamp) (i : Z) :
  can_add_days t i = true -> add_days t i = Ok (shift_days t i).
Proof. intros H. unfold add_days. now rewrite H. Qed.

Lemma add_days_raise (t : Timestamp) (i : Z) (e : exn) :
  add_days t i = Raise e -> e = OutOfBoundsDatetime.
Proof.
  unfold add_days. destruct (can_add_days t i); [discriminate|congruence].
Qed.

Lemma horizon_ok_day (t : Timestamp) (k j : Z) :
  horizon_ok t k = true -> 1 <= j <= k -> can_add_days t j = true.
Proof.
  unfold horizon_ok. rewrite forallb_forall. intros Hall Hj.
  apply Hall, in_py_range. lia.
Qed.

(** Within the range of the timestamp type the dates of the horizon are
    the shifted timestamps. *)
Lemma horizon_dates (t : Timestamp) (k : Z) :
  horizon_ok t k = true ->
  map_result (add_days t) (py_range 1 (k + 1))
  = Ok (map (shift_days t) (py_range 1 (k + 1))).
Proof.
  unfold horizon_ok. rewrite forallb_forall. intros Hall.
  apply map_result_ok. intros x Hx. now apply add_days_ok, Hall.
Qed.

(** The dates of a horizon can be reached when those of a longer one
    can. *)
Lemma horizon_ok_le (t : Timestamp) (k k' : Z) :
  horizon_ok t k' = true -> k <= k' -> horizon_ok t k = true.
Proof.
  intros Hreach Hle. unfold horizon_ok. apply forallb_forall. intros j Hj.
  apply py_range_in in Hj. apply (horizon_ok_day t k'); [exact Hreach|lia].
Qed.

(** The comprehension over the dates: the shifted timestamps, or the
    error of the first date out of the range. *)
Lemma add_days_comprehension (t : Timestamp) (l : list Z) :
  map_result (add_days t) l
  = if forallb (can_add_days t) l then Ok (map (shift_days t) l)
    else Raise OutOfBoundsDatetime.
Proof.
  induction l as [|i l IH]; [reflexivity|].
  cbn [map_result forallb map]. unfold add_days at 1.
  destruct (can_add_days t i); cbn [andb]; [|reflexivity].
  rewrite IH. now destruct (forallb (can_add_days t) l).
Qed.

(** One date of the horizon out of the range makes the comprehension
    raise. *)
Lemma horizon_out_of_range (t : Timestamp) (k j : Z) :
  1 <= j <= k -> can_add_days t j = false ->
  map_result (add_days t) (py_range 1 (k + 1)) = Raise OutOfBoundsDatetime.
Proof.
  intros Hj Hcan. apply (map_result_raise _ _ _ j).
  - intros y e'. apply add_days_raise.
  - apply in_py_range. lia.
  - unfold add_days. now rewrite Hcan.
Qed.

(** C4: on fewer than 10 observations [train] returns [False] and
    leaves the model, the scaler and the file system (directory and
    artifact) as they were. *)
Theorem train_insufficient_data (self : WeatherTrendPredictor)
        (fs : FileSystem) (historical_data : list Observation) :
  (length historical_data < 10)%nat ->
  train self fs historical_data = (Ok false, self, fs).
Proof.
  intros Hlen. unfold train.
  now replace (length historical_data <? 10)%nat with true
    by (symmetry; now apply Nat.ltb_lt).
Qed.

(** C5: on fewer than 5 observations [predict] returns [None],
    whatever the horizon and whatever the state of the instance, and
    raises nothing. *)
Theorem predict_insufficient_data (self : WeatherTrendPredictor)
        (historical_data : list Observation) (days_to_predict : Z) :
  (length historical_data < 5)%nat ->
  predict self historical_data days_to_predict = Ok None.
Proof.
  intros Hlen. unfold predict.
  now replace (length historical_data <? 5)%nat with true
    by (symmetry; now apply Nat.ltb_lt).
Qed.

Lemma scaler_transform_fitted (params : ScalerParams) (X : list FeatureRow) :
  (0 < length X)%nat ->
  scaler_transform (Some params) X = Ok (map (scaler_apply params) X).
Proof. destruct X; [cbn; lia|reflexivity]. Qed.

(** [predict] on at least 5 observations up to the call of the scaler:
    the features are built, the dates of the horizon computed and the
    last feature row read. *)
Lemma predict_up_to_scaler (self : WeatherTrendPredictor)
      (historical_data : list Observation) (k : Z) (last_obs : Observation) :
  (5 <= length historical_data)%nat ->
  nth_error historical_data (length historical_data - 1) = Some last_obs ->
  exists rows last_row,
    prepare_features historical_data
    = Ok (rows, map temperature historical_data)
    /\ last_item rows = Ok last_row
    /\ predict self historical_data k
       = (future_dates <-
            map_result (add_days (timestamp last_obs)) (py_range 1 (k + 1)) ;;
          future_X_scaled <-
            scaler_transform (scaler self)
                             (map (future_row last_row) future_dates) ;;
          predictions <- model_predict (model self) future_X_scaled ;;
          Ok (Some (map (fun dp => mkPoint (strftime_ymd (fst dp)) (snd dp))
                        (combine future_dates predictions))))%result.
Proof.
  intros Hlen Hlast.
  destruct (prepare_features_ok historical_data) as (rows & Hpf & Hrows).
  { intros ->. cbn in Hlen. lia. }
  assert (Hrow : exists last_row, last_item rows = Ok last_row).
  { destruct (nth_error rows (length rows - 1)) as [r|] eqn:Hr.
    - exists r. now apply last_item_nth.
    - apply nth_error_None in Hr. lia. }
  destruct Hrow as (last_row & Hrow).
  exists rows, last_row. split; [exact Hpf|]. split; [exact Hrow|].
  unfold predict.
  replace (length historical_data <? 5)%nat with false
    by (symmetry; apply Nat.ltb_ge; lia).
  rewrite Hpf. cbn [bind fst]. rewrite (last_item_nth _ _ Hlast).
  cbn [bind].
  destruct (map_result (add_days (timestamp last_obs)) (py_range 1 (k + 1)))
    as [dates|e]; [|reflexivity].
  cbn [bind]. rewrite Hrow. reflexivity.
Qed.

(** What [predict] returns on at least 5 observations when the scaler
    has been fitted and the dates of the horizon can be reached, whatever
    the regressor. *)
Lemma predict_fitted_scaler (self : WeatherTrendPredictor)
      (params : ScalerParams) (historical_data : list Observation)
      (k : Z) (last_obs : Observation) :
  scaler self = Some params ->
  (5 <= length historical_data)%nat ->
  (1 <= k)%Z ->
  nth_error historical_data (length historical_data - 1) = Some last_obs ->
  horizon_ok (timestamp last_obs) k = true ->
  exists rows last_row,
    prepare_features historical_data
    = Ok (rows, map temperature historical_data)
    /\ last_item rows = Ok last_row
    /\ predict self historical_data k
       = match model self with
         | Unfitted => Raise NotFittedError
         | Fitted f =>
             Ok (Some
                   (map (fun d =>
                           mkPoint (strftime_ymd d)
                                   (forest_apply f
                                      (scaler_apply params
                                         (future_row last_row d))))
                        (map (shift_days (timestamp last_obs))
                             (py_range 1 (k + 1)))))
         end.
Proof.
  intros Hs Hlen Hk Hlast Hreach.
  destruct (predict_up_to_scaler self historical_data k last_obs Hlen Hlast)
    as (rows & last_row & Hpf & Hrow & Hp).
  exists rows, last_row. split; [exact Hpf|]. split; [exact Hrow|].
  rewrite Hp, (horizon_dates _ _ Hreach). cbn [bind]. rewrite Hs.
  set (dates := map (shift_days (timestamp last_obs)) (py_range 1 (k + 1))).
  rewrite scaler_transform_fitted.
  2:{ unfold dates. rewrite !length_map, length_py_range. lia. }
  cbn [bind].
  destruct (model self) as [|f]; [reflexivity|].
  cbn [model_predict bind]. rewrite !map_map, combine_map_r, map_map.
  reflexivity.
Qed.

(** Where a date of the horizon is out of the range of the timestamp
    type, [predict] raises before it reaches the scaler, whatever the
    state of the instance. *)
Lemma predict_out_of_range (self : WeatherTrendPredictor)
      (historical_data : list Observation) (k j : Z)
      (last_obs : Observation) :
  (5 <= length historical_data)%nat ->
  nth_error historical_data (length historical_data - 1) = Some last_obs ->
  1 <= j <= k ->
  can_add_days (timestamp last_obs) j = false ->
  predict self historical_data k = Raise OutOfBoundsDatetime.
Proof.
  intros Hlen Hlast Hj Hcan.
  destruct (predict_up_to_scaler self historical_data k last_obs Hlen Hlast)
    as (rows & last_row & _ & _ & Hp).
  rewrite Hp, (horizon_out_of_range _ k j Hj Hcan). reflexivity.
Qed.

(** C3 (amended): on a trained instance, at least 5 observations and a
    horizon [k >= 1] all of whose dates the timestamp type can reach,
    [predict] returns exactly [k] points, in order; their dates are the
    [k] calendar days that follow the date of the last observation, each
    one the day after the one before, printed by [strftime('%Y-%m-%d')]
    without a time of day; the years are between 1 and 9999, and from
    the year 1000 on the printed date has the ten characters of
    YYYY-MM-DD. *)
Theorem predict_horizon (self : WeatherTrendPredictor)
        (historical_data : list Observation) (k : Z)
        (last_obs : Observation) :
  trained self = true ->
  (5 <= length historical_data)%nat ->
  (1 <= k)%Z ->
  nth_error historical_data (length historical_data - 1) = Some last_obs ->
  valid_date (date_of (timestamp last_obs)) = true ->
  horizon_ok (timestamp last_obs) k = true ->
  exists points,
    predict self historical_data k = Ok (Some points)
    /\ Z.of_nat (length points) = k
    /\ map date points
       = map render_date
             (days_after (date_of (timestamp last_obs)) (Z.to_nat k))
    /\ (forall y m d,
          In (y, m, d)
             (days_after (date_of (timestamp last_obs)) (Z.to_nat k)) ->
          1 <= y <= 9999
          /\ (1000 <= y -> String.length (render_date (y, m, d)) = 10%nat))
    /\ (forall j,
          date_ltb (Nat.iter j next_day (date_of (timestamp last_obs)))
                   (Nat.iter (S j) next_day (date_of (timestamp last_obs)))
          = true).
Proof.
  intros Htr Hlen Hk Hlast Hvalid Hreach. unfold trained in Htr.
  destruct (model self) as [|f] eqn:Hm; [discriminate|].
  destruct (scaler self) as [params|] eqn:Hs; [|discriminate].
  destruct (predict_fitted_scaler self params historical_data k last_obs
                                  Hs Hlen Hk Hlast Hreach)
    as (rows & last_row & _ & _ & Hp).
  rewrite Hm in Hp. eexists. split; [exact Hp|].
  assert (Hdates :
            map strftime_ymd
                (map (shift_days (timestamp last_obs)) (py_range 1 (k + 1)))
            = map render_date
                  (days_after (date_of (timestamp last_obs)) (Z.to_nat k))).
  { unfold py_range, days_after.
    replace (k + 1 - 1)%Z with k by ring.
    rewrite <- seq_shift, !map_map. apply map_ext. intros n.
    rewrite strftime_render.
    replace (1 + Z.of_nat n)%Z with (Z.of_nat (S n)) by lia.
    now rewrite shift_days_iter. }
  split; [|split; [|split]].
  - rewrite !length_map, length_py_range. lia.
  - rewrite <- Hdates, map_map. reflexivity.
  - intros y m d Hin. unfold days_after in Hin.
    apply in_map_iff in Hin. destruct Hin as (j & Hj & Hin).
    apply in_seq in Hin.
    rewrite <- (shift_days_iter _ _ Hvalid) in Hj.
    assert (Hyear : 1 <= y <= 9999).
    { assert (Hcan : can_add_days (timestamp last_obs) (Z.of_nat j) = true)
        by (apply (horizon_ok_day _ k); [exact Hreach|lia]).
      apply can_add_days_year in Hcan.
      unfold date_of in Hj. now injection Hj as <- _ _. }
    split; [exact Hyear|]. intros Hy. apply render_date_length. lia.
  - intros j. cbn [Nat.iter nat_rect]. apply next_day_later.
Qed.

(** A successful [train] fits both estimators and writes the regressor,
    and nothing else, to the model file. *)
Lemma train_success (self : WeatherTrendPredictor) (fs : FileSystem)
      (historical_data : list Observation) :
  (10 <= length historical_data)%nat ->
  models_dir fs = true ->
  exists f params,
    train self fs historical_data
    = (Ok true, mkPredictor (Fitted f) (Some params),
       mkFileSystem true (Some (Fitted f))).
Proof.
  intros Hlen Hdir. unfold train.
  replace (length historical_data <? 10)%nat with false
    by (symmetry; apply Nat.ltb_ge; lia).
  destruct (prepare_features_ok historical_data) as (rows & Hpf & _).
  { intros ->. cbn in Hlen. lia. }
  rewrite Hpf. cbv zeta. unfold joblib_dump. rewrite Hdir.
  do 2 eexists. reflexivity.
Qed.

(** C2 (the code misses it): after a successful [train] the model file
    holds the fitted regressor but not the scaler; a fresh instance
    that loads it has the regressor of the trained instance and an
    unfitted scaler, and where the trained instance answers [predict]
    with a forecast (every horizon [k >= 1] whose dates can be reached
    from the last observation), the fresh one raises [NotFittedError]. *)
Theorem reload_loses_scaler (self : WeatherTrendPredictor) (fs : FileSystem)
        (historical_data : list Observation) (k : Z) :
  (10 <= length historical_data)%nat ->
  models_dir fs = true ->
  (1 <= k)%Z ->
  exists self' fs',
    train self fs historical_data = (Ok true, self', fs')
    /\ model_file fs' = Some (model self')
    /\ model (fst (init fs')) = model self'
    /\ scaler (fst (init fs')) = None
    /\ (forall last_obs,
          nth_error historical_data (length historical_data - 1)
          = Some last_obs ->
          horizon_ok (timestamp last_obs) k = true ->
          exists points,
            predict self' historical_data k = Ok (Some points)
            /\ predict (fst (init fs')) historical_data k
               = Raise NotFittedError).
Proof.
  intros Hlen Hdir Hk.
  destruct (train_success self fs historical_data Hlen Hdir)
    as (f & params & Htrain).
  do 2 eexists. split; [exact Htrain|].
  split; [reflexivity|]. split; [reflexivity|]. split; [reflexivity|].
  intros last_obs Hlast Hreach.
  destruct (predict_fitted_scaler (mkPredictor (Fitted f) (Some params))
              params historical_data k last_obs eq_refl ltac:(lia) Hk Hlast
              Hreach)
    as (rows & last_row & Hpf & Hrow & Hp).
  cbn [model] in Hp. eexists. split; [exact Hp|].
  destruct (predict_up_to_scaler (fst (init (mkFileSystem true (Some (Fitted f)))))
              historical_data k last_obs ltac:(lia) Hlast)
    as (rows' & last_row' & _ & _ & Hq).
  rewrite Hq, (horizon_dates _ _ Hreach). reflexivity.
Qed.

End Claims.

(** C3 (the claim as worded fails): the trained instance, ten daily
    records ending on 10 January 2023 and a horizon of 3 000 000 days;
    the last date of the horizon falls in the year 10236, which no
    timestamp has, and [predict] raises instead of returning points. *)
Lemma predict_horizon_out_of_range :
  trained trained_instance = true
  /\ (5 <= length ten_observations)%nat
  /\ 1 <= 3000000
  /\ date_of (shift_days (mkTimestamp 2023 1 10 12 0 0) 3000000)
     = (10236, 9, 30)
  /\ (forall lim : TimestampLimits,
        predict (lim := lim) trained_instance ten_observations 3000000
        = Raise OutOfBoundsDatetime)
  /\ (forall lim : TimestampLimits,
        ~ horizon_claim (lim := lim) trained_instance ten_observations
                        3000000).
Proof.
  assert (Hraise : forall lim : TimestampLimits,
             predict (lim := lim) trained_instance ten_observations 3000000
             = Raise OutOfBoundsDatetime).
  { intros lim.
    apply (predict_out_of_range _ _ 3000000 3000000
                                (obs 10 10 (Some 1010%Q)));
      [cbn; lia | reflexivity | lia |].
    destruct (can_add_days (timestamp (obs 10 10 (Some 1010%Q))) 3000000)
      eqn:Hcan; [|reflexivity].
    apply can_add_days_year in Hcan. vm_compute in Hcan.
    destruct Hcan as [_ Hhi]. now contradiction Hhi. }
  split; [reflexivity|]. split; [cbn; lia|]. split; [lia|].
  split; [reflexivity|]. split; [exact Hraise|].
  intros lim Hclaim.
  destruct (Hclaim (obs 10 10 (Some 1010%Q)) eq_refl) as (points & Hp & _).
  rewrite Hraise in Hp. discriminate.
Qed.

End PredictorFacts.

Module PredictorExamples.
Import Calendar Features FeatureFacts Predictor PredictorFacts.
Local Open Scope Q_scope.

Lemma train_insufficient_data_witness :
  train cold_instance (mkFileSystem false None) five_observations
  = (Ok false, cold_instance, mkFileSystem false None).
Proof. apply train_insufficient_data. cbn. lia. Defined.

Lemma predict_insufficient_data_witness :
  predict (lim := datetime_limits) trained_instance
          [obs 1 10 None; obs 2 20 None] 7
  = Ok None.
Proof. apply predict_insufficient_data. cbn. lia. Defined.

Lemma predict_horizon_witness :
  exists points,
    predict (lim := datetime_limits) trained_instance ten_observations 3
    = Ok (Some points)
    /\ Z.of_nat (length points) = 3%Z
    /\ map date points
       = map render_date (days_after (2023, 1, 10)%Z 3)
    /\ (forall y m d,
          In (y, m, d) (days_after (2023, 1, 10)%Z 3) ->
          (1 <= y <= 9999)%Z
          /\ ((1000 <= y)%Z ->
              String.length (render_date (y, m, d)) = 10%nat))
    /\ (forall j,
          date_ltb (Nat.iter j next_day (2023, 1, 10)%Z)
                   (Nat.iter (S j) next_day (2023, 1, 10)%Z) = true).
Proof.
  apply (predict_horizon (lim := datetime_limits)
                         trained_instance ten_observations 3
                         (obs 10 10 (Some 1010)));
    [reflexivity | cbn; lia | lia | reflexivity | reflexivity | reflexivity].
Defined.

Lemma reload_loses_scaler_witness :
  exists self' fs' points,
    train cold_instance (mkFileSystem true None) ten_observations
    = (Ok true, self', fs')
    /\ model_file fs' = Some (model self')
    /\ model (fst (init fs')) = model self'
    /\ scaler (fst (init fs')) = None
    /\ predict (lim := datetime_limits) self' ten_observations 7
       = Ok (Some points)
    /\ predict (lim := datetime_limits) (fst (init fs')) ten_observations 7
       = Raise NotFittedError.
Proof.
  destruct (reload_loses_scaler (lim := datetime_limits)
              cold_instance (mkFileSystem true None) ten_observations 7)
    as (self' & fs' & Htrain & Hfile & Hmodel & Hscaler & Hpredict);
    [cbn; lia | reflexivity | lia |].
  destruct (Hpredict (obs 10 10 (Some 1010)) eq_refl eq_refl)
    as (points & Hp & Hq).
  exists self', fs', points. repeat split; assumption.
Defined.

End PredictorExamples.

(** ** SmartAlertSystem: the rules *)

Module AlertFacts.
Import Alerts.
Local Open Scope Q_scope.

Section WithLower.
Context {sl : StrLower}.

Lemma scan_keywords_app (keywords : list string) (date description : string)
      (alerts : list Alert) :
  scan_keywords keywords date description alerts
  = alerts ++ scan_keywords keywords date description [].
Proof.
  induction keywords as [|kw rest IH]; cbn [scan_keywords].
  - now rewrite app_nil_r.
  - destruct (contains kw description); [reflexivity|exact IH].
Qed.

Lemma scan_keywords_first_match (keywords : list string)
      (date description : string) :
  scan_keywords keywords date description []
  = if existsb (fun kw => contains kw description) keywords
    then [storm_alert date description] else [].
Proof.
  induction keywords as [|kw rest IH]; cbn [scan_keywords existsb];
    [reflexivity|].
  destruct (contains kw description); [reflexivity|exact IH].
Qed.

Lemma analyze_point_app (self : SmartAlertSystem) (alerts : list Alert)
      (p : Forecast) :
  analyze_point self alerts p = alerts ++ analyze_point self [] p.
Proof.
  unfold analyze_point. cbv zeta.
  rewrite scan_keywords_app. symmetry. rewrite scan_keywords_app.
  rewrite app_assoc. f_equal.
  repeat match goal with
         | |- context [if ?c then _ else _] => destruct c
         end; cbn [app]; rewrite <- ?app_assoc, ?app_nil_r; reflexivity.
Qed.

(** The alerts of a forecast are those of its points, in order. *)
Lemma analyze_forecast_points (self : SmartAlertSystem)
      (forecast_data : list Forecast) :
  analyze_forecast self forecast_data
  = flat_map (fun p => analyze_forecast self [p]) forecast_data.
Proof.
  unfold analyze_forecast. cbn [fold_left].
  assert (H : forall l acc,
             fold_left (analyze_point self) l acc
             = acc ++ flat_map (analyze_point self []) l).
  { induction l as [|p l IH]; intros acc; cbn [fold_left flat_map].
    - now rewrite app_nil_r.
    - rewrite IH, (analyze_point_app self acc p). now rewrite app_assoc. }
  apply H.
Qed.

(** [str.lower] on the description of the specification's example. *)
Lemma lower_severe_thunderstorm :
  lower "Severe Thunderstorm Warning" = "severe thunderstorm warning"%string.
Proof. now rewrite lower_on_ascii. Qed.

Lemma storm_alerts_of_point (self : SmartAlertSystem) (p : Forecast) :
  filter is_storm (analyze_forecast self [p])
  = if existsb (fun kw => contains kw (point_description p))
               (storm_keywords self)
    then [storm_alert (point_date p) (point_description p)] else [].
Proof.
  unfold analyze_forecast. cbn [fold_left]. unfold analyze_point. cbv zeta.
  fold (point_date p). fold (point_description p).
  rewrite scan_keywords_app, filter_app, scan_keywords_first_match.
  assert (Hrules : forall l, filter is_storm l = [] ->
             filter is_storm l ++
             filter is_storm
               (if existsb (fun kw => contains kw (point_description p))
                           (storm_keywords self)
                then [storm_alert (point_date p) (point_description p)]
                else [])
             = if existsb (fun kw => contains kw (point_description p))
                          (storm_keywords self)
               then [storm_alert (point_date p) (point_description p)]
               else []).
  { intros l ->. now destruct (existsb _ _). }
  apply Hrules.
  repeat match goal with
         | |- context [if ?c then _ else _] => destruct c
         end; reflexivity.
Qed.

(** C6 (amended): each forecast point yields at most one storm alert:
    when some keyword occurs in the lower-cased description the point's
    storm alerts are exactly one alert, whose value is the whole
    lower-cased description (not the description as given), and none
    otherwise; a forecast has no more storm alerts than points; and
    "Severe Thunderstorm Warning", which contains both "thunderstorm" and
    "storm", yields exactly one storm alert, of value
    "severe thunderstorm warning", under the keywords of the constructor
    whatever the thresholds. *)
Theorem storm_alert_once (self : SmartAlertSystem)
        (forecast_data : list Forecast) (p : Forecast) :
  filter is_storm (analyze_forecast self [p])
  = (if existsb (fun kw => contains kw (point_description p))
                (storm_keywords self)
     then [mkAlert storm (point_date p) (Text (point_description p))
                   (alert_message
                      (storm_alert (point_date p) (point_description p)))]
     else [])
  /\ (length (filter is_storm (analyze_forecast self [p])) <= 1)%nat
  /\ (length (filter is_storm (analyze_forecast self forecast_data))
      <= length forecast_data)%nat
  /\ (forall h f w r ts d t ws,
        filter is_storm
               (analyze_forecast
                  (mkSmartAlertSystem h f w r (storm_keywords init))
                  [mkForecast ts d t ws (Some "Severe Thunderstorm Warning"%string)])
        = [storm_alert (get ts (get d ""%string))
                       "severe thunderstorm warning"%string]).
Proof.
  split; [|split; [|split]].
  - apply storm_alerts_of_point.
  - rewrite storm_alerts_of_point. destruct (existsb _ _); cbn; lia.
  - rewrite analyze_forecast_points.
    induction forecast_data as [|q l IH]; [cbn; lia|].
    cbn [flat_map]. rewrite filter_app, length_app, storm_alerts_of_point.
    cbn [length]. destruct (existsb _ _); cbn [length]; lia.
  - intros h f w r ts d t ws. rewrite storm_alerts_of_point.
    unfold point_description, point_date.
    cbn [f_description f_timestamp f_date get].
    rewrite lower_severe_thunderstorm. reflexivity.
Qed.

(** C7: [set_thresholds] replaces exactly the thresholds it is given,
    with the value given whatever it is, and keeps the others and the
    keywords; given nothing it changes nothing; and once the extreme-heat
    threshold is set to 40 a point at 38 degrees yields no extreme-heat
    alert. *)
Theorem set_thresholds_partial (self : SmartAlertSystem)
        (extreme_heat freezing high_wind heavy_rain : option Q) :
  set_thresholds self extreme_heat freezing high_wind heavy_rain
  = mkSmartAlertSystem
      (override extreme_heat (extreme_heat_threshold self))
      (override freezing (freezing_threshold self))
      (override high_wind (high_wind_threshold self))
      (override heavy_rain (heavy_rain_threshold self))
      (storm_keywords self)
  /\ set_thresholds self None None None None = self
  /\ (forall ts d ws desc,
        filter is_extreme_heat
               (analyze_forecast
                  (set_thresholds self (Some 40) None None None)
                  [mkForecast ts d (Some 38) ws desc])
        = []).
Proof.
  split; [|split].
  - destruct self, extreme_heat, freezing, high_wind, heavy_rain; reflexivity.
  - reflexivity.
  - intros ts d ws desc.
    unfold analyze_forecast. cbn [fold_left]. unfold analyze_point. cbv zeta.
    cbn [set_thresholds extreme_heat_threshold freezing_threshold
         high_wind_threshold storm_keywords f_temperature get].
    change (Qle_bool 40 38) with false. cbv iota.
    rewrite scan_keywords_app, filter_app, scan_keywords_first_match.
    repeat match goal with
           | |- context [if ?c then _ else _] => destruct c
           end; reflexivity.
Qed.

Lemma analyze_point_heavy_rain (h f w r1 r2 : Q) (kws : list string)
      (alerts : list Alert) (p : Forecast) :
  analyze_point (mkSmartAlertSystem h f w r1 kws) alerts p
  = analyze_point (mkSmartAlertSystem h f w r2 kws) alerts p.
Proof. reflexivity. Qed.

(** C8: the heavy-rain threshold is inert: two systems that differ
    only in it return the same alerts on every forecast. *)
Theorem heavy_rain_inert (h f w r1 r2 : Q) (kws : list string)
        (forecast_data : list Forecast) :
  analyze_forecast (mkSmartAlertSystem h f w r1 kws) forecast_data
  = analyze_forecast (mkSmartAlertSystem h f w r2 kws) forecast_data.
Proof.
  unfold analyze_forecast. generalize (@nil Alert).
  induction forecast_data as [|p l IH]; intros acc; [reflexivity|].
  cbn [fold_left]. rewrite (analyze_point_heavy_rain h f w r1 r2). apply IH.
Qed.

(** C10: a point is analysed as if its missing temperature, wind speed
    and description were 0, 0 and the empty text, so that under the
    thresholds of the constructor every point without a temperature
    yields a freezing alert of value 0. *)
Theorem missing_fields_default (self : SmartAlertSystem) (p : Forecast)
        (before after : list Forecast) (ts d : option string)
        (ws : option Q) (desc : option string) :
  analyze_forecast self [p] = analyze_forecast self [with_defaults p]
  /\ In (mkAlert freezing (get ts (get d ""%string)) (Num 0)
                 (alert_message (freezing_alert (get ts (get d ""%string)) 0)))
        (analyze_forecast init (before ++ mkForecast ts d None ws desc :: after)).
Proof.
  split; [reflexivity|].
  rewrite analyze_forecast_points. apply in_flat_map.
  exists (mkForecast ts d None ws desc). split; [apply in_elt|].
  unfold analyze_forecast. cbn [fold_left]. unfold analyze_point. cbv zeta.
  cbn [init extreme_heat_threshold freezing_threshold high_wind_threshold
       storm_keywords f_temperature f_timestamp f_date get].
  change (Qle_bool 35 0) with false. change (Qle_bool 0 0) with true.
  cbv iota. rewrite scan_keywords_app. apply in_or_app. left.
  destruct (Qle_bool 20 _); cbn [app]; left; reflexivity.
Qed.

End WithLower.

(** C6 (the claim as worded fails): the storm alert of the point
    described "Severe Thunderstorm Warning" carries the lower-cased text
    "severe thunderstorm warning", not the description as given,
    whatever [str.lower] does beyond ASCII. *)
Lemma storm_value_claim_fails :
  (forall sl : StrLower,
      analyze_forecast init [stormy_point]
      = [storm_alert "2024-07-01" "severe thunderstorm warning"])
  /\ (forall sl : StrLower, ~ storm_value_claim init stormy_point).
Proof.
  assert (Halerts : forall sl : StrLower,
             analyze_forecast init [stormy_point]
             = [storm_alert "2024-07-01" "severe thunderstorm warning"]).
  { intros sl. unfold analyze_forecast. cbn [fold_left].
    unfold analyze_point, stormy_point. cbv zeta.
    cbn [f_description f_timestamp f_date f_temperature f_wind_speed get].
    rewrite lower_severe_thunderstorm. reflexivity. }
  split; [exact Halerts|]. intros sl Hclaim.
  specialize (Hclaim (storm_alert "2024-07-01" "severe thunderstorm warning")).
  rewrite Halerts in Hclaim. specialize (Hclaim (or_introl eq_refl)).
  discriminate Hclaim.
Qed.

End AlertFacts.

(** ** SmartAlertSystem: what a forecast yields, rule by rule *)

Module AlertRules.
Import Alerts AlertFacts.
Local Open Scope Q_scope.

Section WithLower.
Context {sl : StrLower}.

(** The alerts of one point, rule by rule. *)
Lemma point_alerts (self : SmartAlertSystem) (p : Forecast) :
  analyze_forecast self [p]
  = optional (Qle_bool (extreme_heat_threshold self) (point_temp p))
             (heat_alert (point_date p) (point_temp p))
    ++ optional (Qle_bool (point_temp p) (freezing_threshold self))
                (freezing_alert (point_date p) (point_temp p))
    ++ optional (Qle_bool (high_wind_threshold self) (point_wind p))
                (wind_alert (point_date p) (point_wind p))
    ++ optional (storm_match self p)
                (storm_alert (point_date p) (point_description p)).
Proof.
  unfold analyze_forecast. cbn [fold_left]. unfold analyze_point. cbv zeta.
  fold (point_date p). fold (point_description p).
  fold (point_temp p). fold (point_wind p).
  rewrite scan_keywords_app, scan_keywords_first_match.
  fold (storm_match self p). unfold optional.
  destruct (Qle_bool (extreme_heat_threshold self) (point_temp p));
    destruct (Qle_bool (point_temp p) (freezing_threshold self));
    destruct (Qle_bool (high_wind_threshold self) (point_wind p));
    reflexivity.
Qed.

Lemma optional_nil (fires : bool) (a : Alert) :
  optional fires a = [] <-> fires = false.
Proof. destruct fires; cbn; split; congruence. Qed.

Lemma length_optional (fires : bool) (a : Alert) :
  (length (optional fires a) <= 1)%nat.
Proof. destruct fires; cbn; lia. Qed.

(** X12: the alerts of a forecast are, point after point and in this
    order, an extreme-heat alert when [temp >= extreme_heat_threshold], a
    freezing alert when [temp <= freezing_threshold], a high-winds alert when
    [wind >= high_wind_threshold] and a storm alert when a keyword occurs in
    the lower-cased description; nothing else is emitted. *)
Theorem alerts_rule_by_rule (self : SmartAlertSystem)
        (forecast_data : list Forecast) :
  analyze_forecast self forecast_data
  = flat_map
      (fun p =>
         optional (Qle_bool (extreme_heat_threshold self) (point_temp p))
                  (heat_alert (point_date p) (point_temp p))
         ++ optional (Qle_bool (point_temp p) (freezing_threshold self))
                     (freezing_alert (point_date p) (point_temp p))
         ++ optional (Qle_bool (high_wind_threshold self) (point_wind p))
                     (wind_alert (point_date p) (point_wind p))
         ++ optional (storm_match self p)
                     (storm_alert (point_date p) (point_description p)))
      forecast_data.
Proof.
  rewrite analyze_forecast_points.
  induction forecast_data as [|p l IH]; [reflexivity|].
  cbn [flat_map]. now rewrite IH, point_alerts.
Qed.

(** X13: a forecast of [n] points yields at most [4 n] alerts. *)
Theorem alerts_at_most_four_per_point (self : SmartAlertSystem)
        (forecast_data : list Forecast) :
  (length (analyze_forecast self forecast_data) <= 4 * length forecast_data)%nat.
Proof.
  rewrite analyze_forecast_points.
  induction forecast_data as [|p l IH]; [cbn; lia|].
  cbn [flat_map length]. rewrite length_app, point_alerts, !length_app.
  pose proof (length_optional
                (Qle_bool (extreme_heat_threshold self) (point_temp p))
                (heat_alert (point_date p) (point_temp p))).
  pose proof (length_optional
                (Qle_bool (point_temp p) (freezing_threshold self))
                (freezing_alert (point_date p) (point_temp p))).
  pose proof (length_optional
                (Qle_bool (high_wind_threshold self) (point_wind p))
                (wind_alert (point_date p) (point_wind p))).
  pose proof (length_optional (storm_match self p)
                (storm_alert (point_date p) (point_description p))).
  lia.
Qed.

(** X14: analysing two forecasts one after the other is analysing their
    concatenation: no point influences the alerts of another. *)
Theorem analyze_forecast_app (self : SmartAlertSystem)
        (first second : list Forecast) :
  analyze_forecast self (first ++ second)
  = analyze_forecast self first ++ analyze_forecast self second.
Proof.
  rewrite (analyze_forecast_points self (first ++ second)),
    (analyze_forecast_points self first),
    (analyze_forecast_points self second).
  apply flat_map_app.
Qed.

Lemma point_calm (self : SmartAlertSystem) (p : Forecast) :
  analyze_forecast self [p] = [] <-> calm self p = true.
Proof.
  rewrite point_alerts. unfold calm.
  rewrite !andb_true_iff, !negb_true_iff. split.
  - intros Hp.
    apply app_eq_nil in Hp. destruct Hp as [Hh Hp].
    apply app_eq_nil in Hp. destruct Hp as [Hf Hp].
    apply app_eq_nil in Hp. destruct Hp as [Hw Hs].
    apply optional_nil in Hh, Hf, Hw, Hs. tauto.
  - intros [[[Hh Hf] Hw] Hs]. now rewrite Hh, Hf, Hw, Hs.
Qed.

(** X15: a forecast yields no alert at all exactly when every point is
    calm: temperature strictly between the freezing and the extreme-heat
    thresholds, wind strictly below the high-wind threshold and no storm
    keyword in the description. *)
Theorem no_alerts_iff_calm (self : SmartAlertSystem)
        (forecast_data : list Forecast) :
  analyze_forecast self forecast_data = []
  <-> forallb (calm self) forecast_data = true.
Proof.
  rewrite analyze_forecast_points.
  induction forecast_data as [|p l IH]; [cbn; tauto|].
  cbn [flat_map forallb]. rewrite andb_true_iff, <- IH, <- point_calm.
  split.
  - intros H. now apply app_eq_nil in H.
  - intros [-> ->]. reflexivity.
Qed.

(** X16: when the freezing threshold lies strictly below the extreme-heat
    threshold no point gets both an extreme-heat and a freezing alert; as
    [set_thresholds] checks nothing, the thresholds can be set the other
    way round, and then some point gets both. *)
Theorem heat_and_freezing_exclusive (self : SmartAlertSystem) :
  freezing_threshold self < extreme_heat_threshold self
  <-> (forall p,
          existsb is_extreme_heat (analyze_forecast self [p])
          && existsb is_freezing (analyze_forecast self [p]) = false).
Proof.
  split.
  - intros Hlt p. rewrite point_alerts.
    destruct (Qle_bool (extreme_heat_threshold self) (point_temp p)) eqn:Hh;
      destruct (Qle_bool (point_temp p) (freezing_threshold self)) eqn:Hf;
      destruct (Qle_bool (high_wind_threshold self) (point_wind p));
      destruct (storm_match self p); try reflexivity;
      apply Qle_bool_iff in Hh; apply Qle_bool_iff in Hf;
      exfalso; apply (Qlt_not_le _ _ Hlt); eapply Qle_trans; eassumption.
  - intros Hall.
    destruct (Qlt_le_dec (freezing_threshold self) (extreme_heat_threshold self))
      as [Hlt | Hle]; [exact Hlt|exfalso].
    specialize (Hall (mkForecast None None (Some (extreme_heat_threshold self))
                                 None None)).
    rewrite point_alerts in Hall.
    unfold point_temp in Hall. cbn [f_temperature get] in Hall.
    assert (Hh : Qle_bool (extreme_heat_threshold self)
                          (extreme_heat_threshold self) = true)
      by (apply Qle_bool_iff; apply Qle_refl).
    assert (Hf : Qle_bool (extreme_heat_threshold self)
                          (freezing_threshold self) = true)
      by (now apply Qle_bool_iff).
    rewrite Hh, Hf in Hall. cbn in Hall. discriminate.
Qed.

(** X17: every alert comes from a point of the forecast: it carries the
    date of that point (its [timestamp], else its [date], else the empty
    text) and, as value, the temperature of the point for a heat or
    freezing alert, its wind speed for a high-winds alert and its
    lower-cased description for a storm alert. *)
Theorem alert_provenance (self : SmartAlertSystem)
        (forecast_data : list Forecast) (a : Alert) :
  In a (analyze_forecast self forecast_data) ->
  exists p,
    In p forecast_data
    /\ alert_date a = get (f_timestamp p) (get (f_date p) ""%string)
    /\ alert_value a
       = match alert_type a with
         | extreme_heat | freezing => Num (get (f_temperature p) 0)
         | high_winds => Num (get (f_wind_speed p) 0)
         | storm => Text (lower (get (f_description p) ""%string))
         end.
Proof.
  rewrite analyze_forecast_points. intros Hin.
  apply in_flat_map in Hin. destruct Hin as (p & Hp & Ha).
  exists p. split; [exact Hp|].
  rewrite point_alerts in Ha. unfold optional in Ha.
  repeat (apply in_app_or in Ha; destruct Ha as [Ha | Ha]);
    match type of Ha with
    | In _ (if ?c then _ else _) => destruct c
    end;
    cbn [In] in Ha; try contradiction;
    destruct Ha as [<- | []]; split; reflexivity.
Qed.

(** X18: two calls of [set_thresholds] in a row are one call in which each
    threshold takes the later of the two values given for it, if any. *)
Theorem set_thresholds_twice (self : SmartAlertSystem)
        (h1 f1 w1 r1 h2 f2 w2 r2 : option Q) :
  set_thresholds (set_thresholds self h1 f1 w1 r1) h2 f2 w2 r2
  = set_thresholds self (orelse h2 h1) (orelse f2 f1) (orelse w2 w1)
                   (orelse r2 r1).
Proof.
  destruct h1, f1, w1, r1, h2, f2, w2, r2; reflexivity.
Qed.

Lemma prefix_append (kw s : string) :
  prefix kw s = true <-> exists post, s = (kw ++ post)%string.
Proof.
  revert s. induction kw as [|c kw IH]; intros s.
  - split; [intros _; now exists s|]. intros _. now destruct s.
  - destruct s as [|c' s]; cbn [prefix].
    + split; [discriminate|]. intros (post & H). discriminate.
    + destruct (ascii_dec c c') as [<-|Hne].
      * rewrite IH. split; intros (post & H); exists post.
        -- now rewrite H.
        -- cbn in H. now injection H.
      * split; [discriminate|]. intros (post & H). cbn in H.
        injection H as H _. congruence.
Qed.

Lemma append_assoc (a b c : string) :
  ((a ++ b) ++ c)%string = (a ++ (b ++ c))%string.
Proof. induction a as [|x a IH]; cbn; [|rewrite IH]; reflexivity. Qed.

(** [contains keyword s] says that [keyword] is a piece of [s]. *)
Lemma contains_spec (kw s : string) :
  contains kw s = true
  <-> exists pre post, s = (pre ++ kw ++ post)%string.
Proof.
  split.
  - induction s as [|c s IH]; cbn [contains]; rewrite orb_true_iff.
    + intros [H | H]; [|discriminate].
      apply prefix_append in H. destruct H as (post & H).
      now exists EmptyString, post.
    + intros [H | H].
      * apply prefix_append in H. destruct H as (post & H).
        now exists EmptyString, post.
      * destruct (IH H) as (pre & post & ->).
        now exists (String c pre), post.
  - intros (pre & post & ->). induction pre as [|c pre IH].
    + assert (H : prefix kw (kw ++ post) = true)
        by (apply prefix_append; now exists post).
      cbn [append]. destruct (kw ++ post)%string; cbn [contains];
        now rewrite H.
    + cbn [append contains]. rewrite IH. apply orb_true_r.
Qed.

Lemma contains_trans (a b s : string) :
  contains a b = true -> contains b s = true -> contains a s = true.
Proof.
  rewrite !contains_spec.
  intros (p1 & q1 & ->) (p2 & q2 & ->).
  exists (p2 ++ p1)%string, (q1 ++ q2)%string.
  now rewrite !append_assoc.
Qed.

(** X19: the keyword "thunderstorm" never decides anything: as "storm" is
    a piece of it, the system of the constructor raises the same alerts as
    one that looks for "storm", "hurricane" and "tornado" only. *)
Theorem thunderstorm_keyword_redundant (h f w r : Q)
        (forecast_data : list Forecast) :
  analyze_forecast (mkSmartAlertSystem h f w r (storm_keywords init))
                   forecast_data
  = analyze_forecast
      (mkSmartAlertSystem h f w r ["storm"; "hurricane"; "tornado"]%string)
      forecast_data.
Proof.
  rewrite (analyze_forecast_points (mkSmartAlertSystem h f w r (storm_keywords init))),
    (analyze_forecast_points (mkSmartAlertSystem h f w r _)).
  apply flat_map_ext. intros p. rewrite !point_alerts.
  cbn [extreme_heat_threshold freezing_threshold high_wind_threshold].
  do 3 f_equal. f_equal. unfold storm_match.
  cbn [storm_keywords init existsb].
  destruct (contains "thunderstorm" (point_description p)) eqn:Hth;
    [|reflexivity].
  rewrite (contains_trans "storm" "thunderstorm" (point_description p)
                          eq_refl Hth).
  reflexivity.
Qed.

End WithLower.

End AlertRules.


(** ** Feature builder: shape, ranges and causality of the features *)

Module FeatureRanges.
Import Calendar Pandas PandasFacts Features FeatureFacts.
Local Open Scope Q_scope.

Lemma cell_eq_sym (a b : option Q) : cell_eq a b -> cell_eq b a.
Proof. intros [|x y H]; constructor. now symmetry. Qed.

Lemma cell_eq_trans (a b c : option Q) : cell_eq a b -> cell_eq b c -> cell_eq a c.
Proof.
  intros [|x y H] Hbc; inversion Hbc; subst; constructor.
  etransitivity; eassumption.
Qed.

Lemma Qsum_bounds (lo hi : Q) (l : list Q) :
  (forall x, In x l -> lo <= x <= hi) ->
  inject_Z (Z.of_nat (length l)) * lo <= Qsum l
  /\ Qsum l <= inject_Z (Z.of_nat (length l)) * hi.
Proof.
  induction l as [|x l IH]; intros Hall.
  - unfold Qsum. cbn [length Z.of_nat fold_right].
    change (inject_Z 0) with 0. rewrite !Qmult_0_l. split; apply Qle_refl.
  - destruct IH as [IHlo IHhi]; [intros y Hy; apply Hall; now right|].
    destruct (Hall x (or_introl eq_refl)) as [Hlo Hhi].
    unfold Qsum in *. cbn [fold_right length].
    rewrite Nat2Z.inj_succ, <- Z.add_1_l, inject_Z_plus.
    split.
    + setoid_replace ((inject_Z 1 + inject_Z (Z.of_nat (length l))) * lo)
        with (lo + inject_Z (Z.of_nat (length l)) * lo) by ring.
      now apply Qplus_le_compat.
    + setoid_replace ((inject_Z 1 + inject_Z (Z.of_nat (length l))) * hi)
        with (hi + inject_Z (Z.of_nat (length l)) * hi) by ring.
      now apply Qplus_le_compat.
Qed.

(** The mean of a non-empty list lies within any bounds of its elements. *)
Lemma mean_bounds (lo hi : Q) (l : list Q) :
  l <> [] ->
  (forall x, In x l -> lo <= x <= hi) ->
  lo <= mean l <= hi.
Proof.
  intros Hne Hall. destruct (Qsum_bounds lo hi l Hall) as [Hlo Hhi].
  assert (Hpos : 0 < inject_Z (Z.of_nat (length l))).
  { destruct l; [congruence|]. cbn [length].
    replace 0 with (inject_Z 0) by reflexivity. rewrite <- Zlt_Qlt. lia. }
  unfold mean. split.
  - apply Qle_shift_div_l; [exact Hpos|]. now rewrite Qmult_comm.
  - apply Qle_shift_div_r; [exact Hpos|]. now rewrite Qmult_comm.
Qed.

Lemma trailing_window_in (xs : list Q) (i : nat) :
  (i < length xs)%nat ->
  values_at 0 xs (trailing_indices i) <> []
  /\ forall x, In x (values_at 0 xs (trailing_indices i)) -> In x xs.
Proof.
  intros Hi. unfold values_at, trailing_indices. split.
  - intros H. apply (f_equal (@length Q)) in H.
    rewrite length_map, length_seq in H. cbn in H. lia.
  - intros x Hx. apply in_map_iff in Hx. destruct Hx as (j & <- & Hj).
    apply in_seq in Hj. apply nth_In. lia.
Qed.

Lemma trailing_mean_bounds (lo hi : Q) (xs : list Q) (i : nat) :
  (i < length xs)%nat ->
  (forall x, In x xs -> lo <= x <= hi) ->
  lo <= trailing_mean xs i <= hi.
Proof.
  intros Hi Hall. destruct (trailing_window_in xs i Hi) as [Hne Hin].
  apply mean_bounds; [exact Hne|]. intros x Hx. apply Hall, Hin, Hx.
Qed.

Lemma nth_firstn_lt {A : Type} (d : A) (n : nat) :
  forall (l : list A) (j : nat), (j < n)%nat -> nth j (firstn n l) d = nth j l d.
Proof.
  induction n as [|n IH]; intros l j Hj; [lia|].
  destruct l as [|x l]; [now destruct j|]. destruct j as [|j]; [reflexivity|].
  cbn [firstn nth]. apply IH. lia.
Qed.

(** The trailing mean at [i] reads the first [i + 1] cells only. *)
Lemma trailing_mean_prefix (xs ys : list Q) (i : nat) :
  firstn (S i) xs = firstn (S i) ys ->
  trailing_mean xs i = trailing_mean ys i.
Proof.
  intros H. unfold trailing_mean, values_at. f_equal.
  apply map_ext_in. intros j Hj. unfold trailing_indices in Hj.
  apply in_seq in Hj.
  rewrite <- (nth_firstn_lt 0 (S i) xs j), <- (nth_firstn_lt 0 (S i) ys j) by lia.
  now rewrite H.
Qed.


(** X2: the rolling averages never leave the range of the data: when
    every temperature lies in [tlo, thi] and every humidity in
    [hlo, hhi], so do the temperature and humidity rolling averages of
    every row, and neither is ever missing. *)
Theorem rolling_average_within_range (data : list Observation)
        (tlo thi hlo hhi : Q) (i : nat) (o : Observation) :
  (forall o', In o' data ->
              tlo <= temperature o' <= thi /\ hlo <= humidity o' <= hhi) ->
  nth_error data i = Some o ->
  exists rows row t h,
    prepare_features data = Ok (rows, map temperature data)
    /\ nth_error rows i = Some row
    /\ temp_rolling_avg row = Some t /\ tlo <= t <= thi
    /\ humidity_rolling_avg row = Some h /\ hlo <= h <= hhi.
Proof.
  intros Hrange Ho.
  assert (Hi : (i < length data)%nat) by (apply nth_error_Some; now rewrite Ho).
  destruct (prepare_features_nth data i o Ho)
    as (rows & t & h & p & Hpf & _ & Hrow & Hcells).
  exists rows, (make_row (o, (t, (h, p)))).
  cbn [make_row temp_rolling_avg humidity_rolling_avg].
  assert (Hmean : forall (f : Observation -> Q) lo hi c,
             (forall o', In o' data -> lo <= f o' <= hi) ->
             nth_error (rolling_mean 5 1 (map Some (map f data))) i = Some c ->
             exists v, c = Some v /\ lo <= v <= hi).
  { intros f lo hi c Hf Hc. apply rolled_cell_complete in Hc.
    inversion Hc as [|a b Hab]; subst. exists a. split; [reflexivity|].
    rewrite Hab. apply trailing_mean_bounds; [now rewrite length_map|].
    intros x Hx. apply in_map_iff in Hx. destruct Hx as (o' & <- & Ho').
    now apply Hf. }
  destruct (5 <? length data)%nat.
  - destruct Hcells as (Ht & Hh & _).
    destruct (Hmean temperature tlo thi t) as (tv & -> & Htv);
      [intros o' Ho'; now apply Hrange | exact Ht |].
    destruct (Hmean humidity hlo hhi h) as (hv & -> & Hhv);
      [intros o' Ho'; now apply Hrange | exact Hh |].
    exists tv, hv. now repeat split.
  - destruct Hcells as (-> & -> & _).
    exists (temperature o), (humidity o).
    destruct (Hrange o (nth_error_In _ _ Ho)) as [Ht Hh].
    now repeat split.
Qed.

(** X3: when no record carries a pressure, the pressure feature of every
    row is the default 1013, whatever the number of records. *)
Theorem default_pressure_everywhere (data : list Observation) (i : nat)
        (o : Observation) :
  existsb has_pressure data = false ->
  nth_error data i = Some o ->
  exists rows row,
    prepare_features data = Ok (rows, map temperature data)
    /\ nth_error rows i = Some row
    /\ cell_eq (pressure_rolling_avg row) (Some 1013).
Proof.
  intros Hex Ho.
  assert (Hi : (i < length data)%nat) by (apply nth_error_Some; now rewrite Ho).
  destruct (prepare_features_nth data i o Ho)
    as (rows & t & h & p & Hpf & _ & Hrow & Hcells).
  exists rows, (make_row (o, (t, (h, p)))).
  split; [exact Hpf|]. split; [exact Hrow|].
  cbn [make_row pressure_rolling_avg].
  destruct (5 <? length data)%nat.
  - destruct Hcells as (_ & _ & Hp).
    assert (Hu : uniform_pressure data = true)
      by (unfold uniform_pressure; rewrite Hex; apply orb_true_r).
    rewrite (pressure_column_uniform data Hu) in Hp.
    apply rolled_cell_complete in Hp.
    eapply cell_eq_trans; [exact Hp|]. constructor.
    assert (Hb : 1013 <= trailing_mean (map pressure_or_default data) i <= 1013).
    { apply trailing_mean_bounds; [now rewrite length_map|].
      intros x Hx. apply in_map_iff in Hx. destruct Hx as (o' & <- & Ho').
      assert (Hnone : has_pressure o' = false).
      { destruct (has_pressure o') eqn:Hhas; [|reflexivity].
        assert (existsb has_pressure data = true)
          by (apply existsb_exists; now exists o').
        congruence. }
      unfold has_pressure in Hnone. unfold pressure_or_default.
      destruct (pressure o'); [discriminate|]. split; apply Qle_refl. }
    apply Qle_antisym; apply Hb.
  - destruct Hcells as (_ & _ & ->). rewrite Hex. apply cell_eq_refl.
Qed.

(** X4: on inputs of more than five records the temperature and humidity
    rolling averages are causal: two inputs that agree on their first
    [i + 1] records give row [i] the same two averages, whatever comes
    later. *)
Theorem rolling_average_causal (data1 data2 : list Observation) (i : nat)
        (o : Observation) :
  (5 < length data1)%nat ->
  (5 < length data2)%nat ->
  firstn (S i) data1 = firstn (S i) data2 ->
  nth_error data1 i = Some o ->
  exists rows1 rows2 row1 row2,
    prepare_features data1 = Ok (rows1, map temperature data1)
    /\ prepare_features data2 = Ok (rows2, map temperature data2)
    /\ nth_error rows1 i = Some row1
    /\ nth_error rows2 i = Some row2
    /\ cell_eq (temp_rolling_avg row1) (temp_rolling_avg row2)
    /\ cell_eq (humidity_rolling_avg row1) (humidity_rolling_avg row2).
Proof.
  intros Hl1 Hl2 Hpre Ho1.
  assert (Ho2 : nth_error data2 i = Some o).
  { assert (Hcut : forall d : list Observation,
               nth_error (firstn (S i) d) i = nth_error d i).
    { intros d. rewrite nth_error_firstn.
      now replace (i <? S i)%nat with true by (symmetry; apply Nat.ltb_lt; lia). }
    now rewrite <- Hcut, <- Hpre, Hcut. }
  destruct (prepare_features_nth data1 i o Ho1)
    as (rows1 & t1 & h1 & p1 & Hpf1 & _ & Hrow1 & Hc1).
  destruct (prepare_features_nth data2 i o Ho2)
    as (rows2 & t2 & h2 & p2 & Hpf2 & _ & Hrow2 & Hc2).
  apply Nat.ltb_lt in Hl1, Hl2. rewrite Hl1 in Hc1. rewrite Hl2 in Hc2.
  destruct Hc1 as (Ht1 & Hh1 & _). destruct Hc2 as (Ht2 & Hh2 & _).
  exists rows1, rows2, (make_row (o, (t1, (h1, p1)))),
    (make_row (o, (t2, (h2, p2)))).
  repeat (split; [assumption|]).
  cbn [make_row temp_rolling_avg humidity_rolling_avg].
  assert (Hsame : forall f : Observation -> Q,
             trailing_mean (map f data1) i = trailing_mean (map f data2) i).
  { intros f. apply trailing_mean_prefix. now rewrite !firstn_map, Hpre. }
  apply rolled_cell_complete in Ht1, Ht2, Hh1, Hh2.
  rewrite Hsame in Ht1, Hh1.
  split; (eapply cell_eq_trans; [eassumption|now apply cell_eq_sym]).
Qed.

End FeatureRanges.

(** ** WeatherTrendPredictor: cold use, horizons and persistence *)

Module PredictorLifeCycle.
Import Calendar Pandas Features FeatureFacts Predictor PredictorFacts.

Section WithSklearn.
Context {sk : Sklearn} {lim : TimestampLimits}.

(** On at least 5 observations [predict] gets as far as the dates of
    the horizon and, when they can be reached, as scaling the rows of the
    future days. *)
Lemma predict_reaches_scaler (self : WeatherTrendPredictor)
      (historical_data : list Observation) (k : Z) :
  (5 <= length historical_data)%nat ->
  exists last_obs rows last_row,
    nth_error historical_data (length historical_data - 1) = Some last_obs
    /\ prepare_features historical_data
       = Ok (rows, map temperature historical_data)
    /\ last_item rows = Ok last_row
    /\ predict self historical_data k
       = (future_dates <-
            map_result (add_days (timestamp last_obs)) (py_range 1 (k + 1)) ;;
          future_X_scaled <-
            scaler_transform (scaler self)
                             (map (future_row last_row) future_dates) ;;
          predictions <- model_predict (model self) future_X_scaled ;;
          Ok (Some (map (fun dp => mkPoint (strftime_ymd (fst dp)) (snd dp))
                        (combine future_dates predictions))))%result.
Proof.
  intros Hlen.
  destruct (nth_error historical_data (length historical_data - 1))
    as [last_obs|] eqn:Hlast; [|apply nth_error_None in Hlast; lia].
  destruct (predict_up_to_scaler self historical_data k last_obs Hlen Hlast)
    as (rows & last_row & Hpf & Hrow & Hp).
  now exists last_obs, rows, last_row.
Qed.

Lemma firstn_seq_le (n : nat) :
  forall s m, (n <= m)%nat -> firstn n (seq s m) = seq s n.
Proof.
  induction n as [|n IH]; intros s m Hle; [reflexivity|].
  destruct m as [|m]; [lia|]. cbn [seq firstn]. f_equal. apply IH. lia.
Qed.

Lemma py_range_prefix (lo a b : Z) :
  (lo <= a <= b)%Z ->
  firstn (Z.to_nat (a - lo)) (py_range lo b) = py_range lo a.
Proof.
  intros H. unfold py_range. rewrite firstn_map, firstn_seq_le by lia.
  reflexivity.
Qed.

(** X5: cold use: on an instance whose scaler was never fitted, [predict]
    raises for every input of at least 5 observations and every horizon,
    and returns neither [None] nor a forecast: it raises [NotFittedError]
    when every date of the horizon can be reached from the last
    timestamp, and the out-of-bounds error of the date arithmetic, which
    comes first, when one cannot. *)
Theorem predict_cold_raises (self : WeatherTrendPredictor)
        (historical_data : list Observation) (days_to_predict : Z)
        (last_obs : Observation) :
  scaler self = None ->
  (5 <= length historical_data)%nat ->
  nth_error historical_data (length historical_data - 1) = Some last_obs ->
  predict self historical_data days_to_predict
  = Raise (if horizon_ok (timestamp last_obs) days_to_predict
           then NotFittedError else OutOfBoundsDatetime).
Proof.
  intros Hs Hlen Hlast.
  destruct (predict_up_to_scaler self historical_data days_to_predict
                                 last_obs Hlen Hlast)
    as (rows & last_row & _ & _ & ->).
  rewrite add_days_comprehension. fold (horizon_ok (timestamp last_obs)
                                                   days_to_predict).
  destruct (horizon_ok (timestamp last_obs) days_to_predict);
    [|reflexivity].
  cbn [bind]. now rewrite Hs.
Qed.

(** X6: a horizon of zero or fewer days is not answered with an empty
    forecast: with a fitted scaler and at least 5 observations [predict]
    raises [ValueError], the scaler being given no row at all. *)
Theorem predict_empty_horizon_raises (self : WeatherTrendPredictor)
        (params : ScalerParams) (historical_data : list Observation)
        (days_to_predict : Z) :
  scaler self = Some params ->
  (5 <= length historical_data)%nat ->
  (days_to_predict <= 0)%Z ->
  predict self historical_data days_to_predict = Raise ValueError.
Proof.
  intros Hs Hlen Hk.
  destruct (predict_reaches_scaler self historical_data days_to_predict Hlen)
    as (last_obs & rows & last_row & _ & _ & _ & ->).
  unfold py_range.
  replace (Z.to_nat (days_to_predict + 1 - 1)) with 0%nat by lia.
  cbn [seq map map_result bind]. now rewrite Hs.
Qed.

(** X7: forecasts are consistent across horizons: on a trained instance
    the forecast for [k] days is the first [k] points of the forecast for
    any longer horizon [k'] whose dates can all be reached from the last
    timestamp. *)
Theorem predict_horizon_prefix (self : WeatherTrendPredictor)
        (historical_data : list Observation) (k k' : Z)
        (last_obs : Observation) :
  trained self = true ->
  (5 <= length historical_data)%nat ->
  (1 <= k <= k')%Z ->
  nth_error historical_data (length historical_data - 1) = Some last_obs ->
  horizon_ok (timestamp last_obs) k' = true ->
  exists points points',
    predict self historical_data k = Ok (Some points)
    /\ predict self historical_data k' = Ok (Some points')
    /\ points = firstn (Z.to_nat k) points'.
Proof.
  intros Htr Hlen Hk Hlast Hreach'. unfold trained in Htr.
  destruct (model self) as [|f] eqn:Hm; [discriminate|].
  destruct (scaler self) as [params|] eqn:Hs; [|discriminate].
  assert (Hreach : horizon_ok (timestamp last_obs) k = true)
    by (apply (horizon_ok_le _ k k'); [exact Hreach'|lia]).
  destruct (predict_fitted_scaler self params historical_data k last_obs
                                  Hs Hlen ltac:(lia) Hlast Hreach)
    as (rows & last_row & Hpf & Hrow & Hp).
  destruct (predict_fitted_scaler self params historical_data k' last_obs
                                  Hs Hlen ltac:(lia) Hlast Hreach')
    as (rows' & last_row' & Hpf' & Hrow' & Hp').
  rewrite Hpf in Hpf'. injection Hpf' as <-.
  rewrite Hrow in Hrow'. injection Hrow' as <-.
  rewrite Hm in Hp, Hp'.
  do 2 eexists. split; [exact Hp|]. split; [exact Hp'|].
  rewrite !firstn_map.
  replace (Z.to_nat k) with (Z.to_nat (k + 1 - 1)) by lia.
  rewrite py_range_prefix by lia. reflexivity.
Qed.

(** X8: [predict] reads the history through its last timestamp and its
    last feature row only: two histories of at least 5 observations with
    the same last timestamp and the same last row of features get the same
    answer from the same instance, forecast or exception. *)
Theorem predict_reads_tail (self : WeatherTrendPredictor)
        (data1 data2 : list Observation) (k : Z)
        (rows1 rows2 : list FeatureRow) (y1 y2 : list Q)
        (o1 o2 : Observation) :
  (5 <= length data1)%nat ->
  (5 <= length data2)%nat ->
  prepare_features data1 = Ok (rows1, y1) ->
  prepare_features data2 = Ok (rows2, y2) ->
  last_item rows1 = last_item rows2 ->
  nth_error data1 (length data1 - 1) = Some o1 ->
  nth_error data2 (length data2 - 1) = Some o2 ->
  timestamp o1 = timestamp o2 ->
  predict self data1 k = predict self data2 k.
Proof.
  intros Hl1 Hl2 Hpf1 Hpf2 Hrows Ho1 Ho2 Hts.
  destruct (predict_reaches_scaler self data1 k Hl1)
    as (o1' & r1 & lr1 & Ho1' & Hpf1' & Hr1 & ->).
  destruct (predict_reaches_scaler self data2 k Hl2)
    as (o2' & r2 & lr2 & Ho2' & Hpf2' & Hr2 & ->).
  rewrite Ho1 in Ho1'. injection Ho1' as <-.
  rewrite Ho2 in Ho2'. injection Ho2' as <-.
  rewrite Hpf1 in Hpf1'. injection Hpf1' as <- _.
  rewrite Hpf2 in Hpf2'. injection Hpf2' as <- _.
  rewrite Hrows, Hr2 in Hr1. injection Hr1 as <-.
  now rewrite Hts.
Qed.

(** X9: training then forecasting: after a [train] on at least 10
    observations (the models directory being there), on any instance,
    [predict] answers any history of at least 5 observations and any
    horizon [k >= 1] whose dates can all be reached from the last
    timestamp of the history with exactly [k] points. *)
Theorem train_then_predict (self : WeatherTrendPredictor) (fs : FileSystem)
        (training history : list Observation) (k : Z)
        (last_obs : Observation) :
  (10 <= length training)%nat ->
  models_dir fs = true ->
  (5 <= length history)%nat ->
  (1 <= k)%Z ->
  nth_error history (length history - 1) = Some last_obs ->
  horizon_ok (timestamp last_obs) k = true ->
  exists self' fs' points,
    train self fs training = (Ok true, self', fs')
    /\ predict self' history k = Ok (Some points)
    /\ Z.of_nat (length points) = k.
Proof.
  intros Htrain Hdir Hlen Hk Hlast Hreach.
  destruct (train_success self fs training Htrain Hdir) as (f & params & Ht).
  destruct (predict_fitted_scaler (mkPredictor (Fitted f) (Some params))
              params history k last_obs eq_refl Hlen Hk Hlast Hreach)
    as (rows & last_row & _ & _ & Hp).
  cbn [model] in Hp.
  do 3 eexists. split; [exact Ht|]. split; [exact Hp|].
  rewrite !length_map, length_py_range. lia.
Qed.



End WithSklearn.

End PredictorLifeCycle.

(** ** The request handlers *)

Module AppFacts.
Import Calendar Features Predictor PredictorFacts PredictorLifeCycle App.

Section WithSklearn.
Context {sk : Sklearn} {lim : TimestampLimits}.


(** X21: with 5 to 9 records and a predictor whose scaler was never
    fitted (a fresh process, with or without a model file) the handler
    does not answer: [train] declines in silence and [predict] raises an
    exception the handler does not catch, [NotFittedError] when every
    date of the horizon can be reached from the last timestamp and the
    out-of-bounds error of the date arithmetic when one cannot; predictor
    and file system stay as they were. *)
Theorem ai_prediction_cold (weather_predictor : WeatherTrendPredictor)
        (fs : FileSystem) (city : string) (days : Z)
        (historical_data : list Observation) (last_obs : Observation) :
  (5 <= length historical_data < 10)%nat ->
  scaler weather_predictor = None ->
  nth_error historical_data (length historical_data - 1) = Some last_obs ->
  ai_prediction weather_predictor fs city days (Payload historical_data)
  = (Raise (if horizon_ok (timestamp last_obs) days
            then NotFittedError else OutOfBoundsDatetime),
     weather_predictor, fs).
Proof.
  intros Hlen Hs Hlast. unfold ai_prediction, train.
  replace (length historical_data <? 5)%nat with false
    by (symmetry; apply Nat.ltb_ge; lia).
  replace (length historical_data <? 10)%nat with true
    by (symmetry; apply Nat.ltb_lt; lia).
  destruct (predict_up_to_scaler weather_predictor historical_data days
                                 last_obs ltac:(lia) Hlast)
    as (rows & last_row & _ & _ & ->).
  rewrite add_days_comprehension.
  fold (horizon_ok (timestamp last_obs) days).
  destruct (horizon_ok (timestamp last_obs) days); [|reflexivity].
  cbn [bind]. now rewrite Hs.
Qed.

(** X22: with 5 to 9 records, a predictor trained earlier and a horizon
    [days >= 1] whose dates can all be reached from the last timestamp
    of the records, the handler answers with a forecast of the model
    fitted by that earlier training: nothing is retrained and nothing is
    written. *)
Theorem ai_prediction_stale_model (weather_predictor : WeatherTrendPredictor)
        (fs : FileSystem) (city : string) (days : Z)
        (historical_data : list Observation) (last_obs : Observation) :
  (5 <= length historical_data < 10)%nat ->
  trained weather_predictor = true ->
  (1 <= days)%Z ->
  nth_error historical_data (length historical_data - 1) = Some last_obs ->
  horizon_ok (timestamp last_obs) days = true ->
  exists predictions,
    predict weather_predictor historical_data days = Ok (Some predictions)
    /\ Z.of_nat (length predictions) = days
    /\ ai_prediction weather_predictor fs city days (Payload historical_data)
       = (Ok (PredictionOk city (Some predictions) MODEL_TYPE MODEL_FEATURES),
          weather_predictor, fs).
Proof.
  intros Hlen Htr Hdays Hlast Hreach. unfold trained in Htr.
  destruct (model weather_predictor) as [|f] eqn:Hm; [discriminate|].
  destruct (scaler weather_predictor) as [params|] eqn:Hs; [|discriminate].
  destruct (predict_fitted_scaler weather_predictor params historical_data
              days last_obs Hs ltac:(lia) Hdays Hlast Hreach)
    as (rows & last_row & _ & _ & Hp).
  rewrite Hm in Hp.
  eexists. split; [exact Hp|].
  split; [rewrite !length_map, length_py_range; lia|].
  unfold ai_prediction, train.
  replace (length historical_data <? 5)%nat with false
    by (symmetry; apply Nat.ltb_ge; lia).
  replace (length historical_data <? 10)%nat with true
    by (symmetry; apply Nat.ltb_lt; lia).
  now rewrite Hp.
Qed.

(** X23: the [None] of [predict] never reaches a client: whenever the
    handler answers with status 200, its [predictions] field is a list. *)
Theorem ai_prediction_never_null (weather_predictor : WeatherTrendPredictor)
        (fs : FileSystem) (city : string) (days : Z)
        (upstream : Upstream (list Observation))
        (city' : string) (predictions : option (list PredictionPoint))
        (model_type : string) (features : list string)
        (weather_predictor' : WeatherTrendPredictor) (fs' : FileSystem) :
  ai_prediction weather_predictor fs city days upstream
  = (Ok (PredictionOk city' predictions model_type features),
     weather_predictor', fs') ->
  predictions <> None.
Proof.
  unfold ai_prediction. destruct upstream as [message | historical_data];
    [discriminate|].
  destruct (length historical_data <? 5)%nat eqn:Hlen; [discriminate|].
  apply Nat.ltb_ge in Hlen.
  destruct (train weather_predictor fs historical_data) as [[r wp1] fs1].
  destruct r as [b|e]; [|discriminate].
  destruct (predict_reaches_scaler wp1 historical_data days Hlen)
    as (last_obs & rows & last_row & _ & _ & _ & ->).
  destruct (map_result _ _) as [dates|e]; cbn [bind]; [|discriminate].
  destruct (scaler_transform _ _) as [X|e]; cbn [bind]; [|discriminate].
  destruct (model_predict _ _) as [preds|e]; cbn [bind]; [|discriminate].
  intros [= _ <- _ _ _ _]. discriminate.
Qed.

End WithSklearn.

(** X24: the [has_alerts] flag of the severe-weather handler is raised
    exactly when some point of the forecast is not calm, and the alerts of
    the response are those of [analyze_forecast]; a failed request to the
    weather data service is answered with its message. *)
Theorem severe_weather_flag {sl : Alerts.StrLower}
        (smart_alert_system : Alerts.SmartAlertSystem)
        (city message : string) (forecast : list Alerts.Forecast) :
  get_severe_weather_alert smart_alert_system city (Payload forecast)
  = SevereWeatherOk city
      (negb (forallb (Alerts.calm smart_alert_system) forecast))
      (Alerts.analyze_forecast smart_alert_system forecast)
  /\ get_severe_weather_alert smart_alert_system city (RequestFailed message)
     = SevereWeatherUpstreamError message.
Proof.
  split; [|reflexivity].
  unfold get_severe_weather_alert. cbv zeta. f_equal.
  rewrite AlertFacts.analyze_forecast_points.
  induction forecast as [|p l IH]; [reflexivity|].
  cbn [flat_map forallb]. rewrite length_app, negb_andb, <- IH.
  destruct (Alerts.calm smart_alert_system p) eqn:Hc.
  - apply AlertRules.point_calm in Hc. now rewrite Hc.
  - destruct (Alerts.analyze_forecast smart_alert_system [p]) as [|a rest] eqn:Ha.
    + apply AlertRules.point_calm in Ha. congruence.
    + reflexivity.
Qed.

End AppFacts.

(** ** The extra properties on concrete inputs *)

Module Examples.
Import Calendar Pandas PandasFacts Features FeatureFacts FeatureRanges.
Import Predictor PredictorFacts PredictorLifeCycle App AppFacts.
Local Open Scope Q_scope.

Lemma alert_provenance_witness :
  exists p,
    In p [Alerts.mkForecast (Some "2023-07-01"%string) None (Some 40) None None]
    /\ Alerts.alert_date (Alerts.heat_alert "2023-07-01" 40)
       = Alerts.get (Alerts.f_timestamp p)
                    (Alerts.get (Alerts.f_date p) ""%string)
    /\ Alerts.alert_value (Alerts.heat_alert "2023-07-01" 40)
       = Alerts.Num (Alerts.get (Alerts.f_temperature p) 0).
Proof.
  apply (AlertRules.alert_provenance
           (sl := Alerts.ascii_lower) Alerts.init
           [Alerts.mkForecast (Some "2023-07-01"%string) None (Some 40) None None]
           (Alerts.heat_alert "2023-07-01" 40)).
  left. reflexivity.
Defined.

Lemma rolling_average_within_range_witness :
  exists rows row t h,
    prepare_features six_mixed_pressure
    = Ok (rows, map temperature six_mixed_pressure)
    /\ nth_error rows 5 = Some row
    /\ temp_rolling_avg row = Some t /\ 10 <= t <= 20
    /\ humidity_rolling_avg row = Some h /\ 50 <= h <= 50.
Proof.
  apply (rolling_average_within_range six_mixed_pressure 10 20 50 50 5
                                      (obs 6 20 None)).
  - intros o' Hin. cbn [six_mixed_pressure In] in Hin.
    repeat (destruct Hin as [<- | Hin]; [vm_compute; intuition discriminate|]).
    contradiction.
  - reflexivity.
Defined.

Lemma default_pressure_everywhere_witness :
  exists rows row,
    prepare_features five_observations
    = Ok (rows, map temperature five_observations)
    /\ nth_error rows 2 = Some row
    /\ cell_eq (pressure_rolling_avg row) (Some 1013).
Proof.
  apply (default_pressure_everywhere five_observations 2 (obs 3 10 None));
    reflexivity.
Defined.

Lemma rolling_average_causal_witness :
  exists rows1 rows2 row1 row2,
    prepare_features six_mixed_pressure
    = Ok (rows1, map temperature six_mixed_pressure)
    /\ prepare_features (six_mixed_pressure ++ [obs 7 99 None])
       = Ok (rows2, map temperature (six_mixed_pressure ++ [obs 7 99 None]))
    /\ nth_error rows1 5 = Some row1
    /\ nth_error rows2 5 = Some row2
    /\ cell_eq (temp_rolling_avg row1) (temp_rolling_avg row2)
    /\ cell_eq (humidity_rolling_avg row1) (humidity_rolling_avg row2).
Proof.
  apply (rolling_average_causal six_mixed_pressure
                                (six_mixed_pressure ++ [obs 7 99 None]) 5
                                (obs 6 20 None));
    [cbn; lia | cbn; lia | reflexivity | reflexivity].
Defined.

Lemma predict_cold_raises_witness :
  predict (lim := datetime_limits) cold_instance five_observations 7
  = Raise NotFittedError.
Proof.
  apply (predict_cold_raises (lim := datetime_limits) cold_instance
                             five_observations 7 (obs 5 10 None));
    [reflexivity | cbn; lia | reflexivity].
Defined.

Lemma predict_empty_horizon_raises_witness :
  predict (lim := datetime_limits) trained_instance five_observations 0
  = Raise ValueError.
Proof.
  apply (predict_empty_horizon_raises trained_instance tt);
    [reflexivity | cbn; lia | lia].
Defined.

Lemma predict_horizon_prefix_witness :
  exists points points',
    predict (lim := datetime_limits) trained_instance ten_observations 2
    = Ok (Some points)
    /\ predict (lim := datetime_limits) trained_instance ten_observations 7
       = Ok (Some points')
    /\ points = firstn (Z.to_nat 2) points'.
Proof.
  apply (predict_horizon_prefix (lim := datetime_limits) trained_instance
                                ten_observations 2 7
                                (obs 10 10 (Some 1010)));
    [reflexivity | cbn; lia | lia | reflexivity | reflexivity].
Defined.

Lemma predict_reads_tail_witness :
  predict (lim := datetime_limits) trained_instance five_observations 3
  = predict (lim := datetime_limits) trained_instance
            [obs 1 0 None; obs 2 0 None; obs 3 0 None; obs 4 0 None;
             obs 5 10 None] 3.
Proof.
  eapply (predict_reads_tail trained_instance five_observations _ 3
                             _ _ _ _ (obs 5 10 None) (obs 5 10 None));
    [cbn; lia | cbn; lia | reflexivity | reflexivity | reflexivity
     | reflexivity | reflexivity | reflexivity].
Defined.

Lemma train_then_predict_witness :
  exists self' fs' points,
    train cold_instance (mkFileSystem true None) ten_observations
    = (Ok true, self', fs')
    /\ predict (lim := datetime_limits) self' five_observations 4
       = Ok (Some points)
    /\ Z.of_nat (length points) = 4%Z.
Proof.
  apply (train_then_predict (lim := datetime_limits) cold_instance
                            (mkFileSystem true None) ten_observations
                            five_observations 4 (obs 5 10 None));
    [cbn; lia | reflexivity | cbn; lia | lia | reflexivity | reflexivity].
Defined.




Lemma ai_prediction_cold_witness :
  ai_prediction (lim := datetime_limits) cold_instance
                (mkFileSystem true None) "London" 7
                (Payload five_observations)
  = (Raise NotFittedError, cold_instance, mkFileSystem true None).
Proof.
  apply (ai_prediction_cold (lim := datetime_limits) cold_instance
                            (mkFileSystem true None) "London" 7
                            five_observations (obs 5 10 None));
    [cbn; lia | reflexivity | reflexivity].
Defined.

Lemma ai_prediction_stale_model_witness :
  exists predictions,
    predict (lim := datetime_limits) trained_instance five_observations 7
    = Ok (Some predictions)
    /\ Z.of_nat (length predictions) = 7%Z
    /\ ai_prediction (lim := datetime_limits) trained_instance
                     (mkFileSystem true None) "London" 7
                     (Payload five_observations)
       = (Ok (PredictionOk "London" (Some predictions) MODEL_TYPE MODEL_FEATURES),
          trained_instance, mkFileSystem true None).
Proof.
  apply (ai_prediction_stale_model (lim := datetime_limits) trained_instance
                                   (mkFileSystem true None) "London" 7
                                   five_observations (obs 5 10 None));
    [cbn; lia | reflexivity | lia | reflexivity | reflexivity].
Defined.

Lemma ai_prediction_never_null_witness :
  match ai_prediction (lim := datetime_limits) cold_instance
                      (mkFileSystem true None) "London" 1
                      (Payload ten_observations) with
  | (Ok (PredictionOk _ predictions _ _), _, _) => predictions <> None
  | _ => True
  end.
Proof.
  vm_compute.
  eapply (ai_prediction_never_null (lim := datetime_limits) cold_instance
                                   (mkFileSystem true None)
                                   "London" 1 (Payload ten_observations)).
  vm_compute. reflexivity.
Defined.

End Examples.
